(** * pincode-checker: nearest warehouse and stock selection

    A shallow embedding of the two serverless handlers of the repository,

    - [src/netlify/functions/checkPincode.js] (module [CheckPincode]), and
    - [src/unnamed/part_000]                  (module [Part000]),

    together with the helpers both files share word for word
    ([findNearestLocation], the two constant tables, the flattening of the
    Shopify answer).  Definitions come first, theorems follow. *)

From Stdlib Require Import List String Ascii ZArith NArith QArith Bool Lia.
From Stdlib Require Import Qround Qabs Permutation Sorted.
Import ListNotations.

Local Open Scope string_scope.
Local Open Scope Z_scope.

(* ================================================================== *)
(** * JavaScript values used by the handlers *)
(* ================================================================== *)

Module JS.

(** ** Plain objects

    An object literal is kept as the list of its own properties in creation
    order.  Keys of one object are pairwise distinct in JavaScript; nothing
    below relies on it. *)

Definition object (A : Type) : Type := list (string * A).

(** [obj[key]] for an own string key; [None] stands for [undefined].
    Members inherited from [Object.prototype] are functions or objects, never
    strings: where the handlers compare [obj[key]] with a string by [===]
    they count as [undefined]. *)
Fixpoint get {A : Type} (obj : object A) (key : string) : option A :=
  match obj with
  | [] => None
  | (k, v) :: rest => if String.eqb k key then Some v else get rest key
  end.

(** ** Property order of [Object.entries]

    [Object.entries] lists the keys that are array indices (canonical decimal
    numerals below 2^32 - 1) first, in ascending numeric order, and the
    remaining string keys afterwards in creation order. *)

Definition digit (c : ascii) : option N :=
  let n := N_of_ascii c in
  if ((48 <=? n) && (n <=? 57))%N then Some (n - 48)%N else None.

Fixpoint digits (s : string) (acc : N) : option N :=
  match s with
  | EmptyString => Some acc
  | String c rest =>
      match digit c with
      | Some d => digits rest (10 * acc + d)%N
      | None => None
      end
  end.

Definition array_index (key : string) : option N :=
  match key with
  | EmptyString => None
  | String "0"%char EmptyString => Some 0%N
  | String "0"%char _ => None
  | _ =>
      match digits key 0%N with
      | Some n => if (n <=? 4294967294)%N then Some n else None
      | None => None
      end
  end.

Fixpoint insert_index {A : Type} (i : N) (e : string * A)
    (sorted : list (N * (string * A))) : list (N * (string * A)) :=
  match sorted with
  | [] => [(i, e)]
  | (j, e') :: rest =>
      if (i <? j)%N then (i, e) :: sorted
      else (j, e') :: insert_index i e rest
  end.

Fixpoint index_properties {A : Type} (obj : object A)
    : list (N * (string * A)) :=
  match obj with
  | [] => []
  | e :: rest =>
      match array_index (fst e) with
      | Some i => insert_index i e (index_properties rest)
      | None => index_properties rest
      end
  end.

Definition is_index_key {A : Type} (e : string * A) : bool :=
  match array_index (fst e) with Some _ => true | None => false end.

Definition Object_entries {A : Type} (obj : object A) : list (string * A) :=
  (map snd (index_properties obj)
    ++ filter (fun e => negb (is_index_key e)) obj)%list.

(** ** Numbers compared by the scan

    A distance is a whole number of metres or [NaN]; the running minimum
    starts at [Infinity]. *)

Inductive number : Type :=
| Num (z : Z)
| Infinity
| NaN.

(** [a < b]: false as soon as one side is [NaN]. *)
Definition lt (a b : number) : bool :=
  match a, b with
  | Num x, Num y => x <? y
  | Num _, Infinity => true
  | _, _ => false
  end.

(** ** Truthiness of a query parameter ([undefined] or a string) *)

Definition truthy (v : option string) : bool :=
  match v with
  | None => false
  | Some s => negb (String.eqb s "")
  end.

(** String conversion in a template literal or a request body. *)
Definition toString (v : option string) : string :=
  match v with
  | None => "undefined"
  | Some s => s
  end.

(** ** Values placed in a JSON response body

    Strings, numbers, and the [errors] array of a GraphQL answer relayed as
    it came (each error kept by its message). *)

Inductive value : Type :=
| Str (s : string)
| Number (n : Z)
| Errors (messages : list string).

End JS.

(* ================================================================== *)
(** * Coordinates and the two constant tables *)
(* ================================================================== *)

(** A number of degrees as a literal or [parseFloat] gives it: a decimal, or
    [NaN] when the string parsed is not a numeral. *)
Inductive Angle : Type :=
| Deg (q : Q)
| NotANumber.

Record Coordinates : Type := {
  latitude : Angle;
  longitude : Angle
}.

(** What [getDistance] of the geolib package answers: the distance rounded to
    a whole number of metres, or [NaN] when a coordinate is not a number. *)
Module Geolib.

Inductive distance : Type :=
| Metres (m : Z)
| NaN.

(** The distance as the JavaScript number it is. *)
Definition toNumber (d : distance) : JS.number :=
  match d with
  | Metres m => JS.Num m
  | NaN => JS.NaN
  end.

(** [a <= b] and [a < b] on two answers: false as soon as one is [NaN]. *)
Definition le (a b : distance) : Prop :=
  match a, b with
  | Metres x, Metres y => x <= y
  | _, _ => False
  end.

Definition lt (a b : distance) : Prop :=
  match a, b with
  | Metres x, Metres y => x < y
  | _, _ => False
  end.

End Geolib.

(** The object [{ pincode, coords }] built by the scan. *)
Record NearestLocation : Type := {
  pincode : string;
  coords : Coordinates
}.

(** [warehouseCoordinates], the same literal in both handlers. *)
Definition warehouseCoordinates : JS.object Coordinates :=
  [ ("382213", {| latitude := Deg 23.0225; longitude := Deg 72.5714 |});
    ("110042", {| latitude := Deg 28.7041; longitude := Deg 77.1025 |});
    ("562123", {| latitude := Deg 12.9716; longitude := Deg 77.5946 |});
    ("131028", {| latitude := Deg 28.9876; longitude := Deg 77.1136 |}) ].

(** [warehouseLocationMap], the same literal in both handlers. *)
Definition warehouseLocationMap : JS.object string :=
  [ ("Ahmedabad Warehouse", "382213");
    ("Delhi Warehouse", "110042");
    ("Emiza Blr Warehouse", "562123");
    ("Kundli Warehouse", "131028") ].

(* ================================================================== *)
(** * findNearestLocation (identical in both files) *)
(* ================================================================== *)

Module Nearest.
Section Scan.

(** [getDistance] of the geolib package. *)
Variable getDistance : Coordinates -> Coordinates -> Geolib.distance.

(** The pair [(nearestLocation, minDistance)] of the two [let] variables. *)
Definition state : Type := (option NearestLocation * JS.number)%type.

(** Body of the [forEach] callback. *)
Definition visit (userCoordinates : Coordinates) (st : state)
    (entry : string * Coordinates) : state :=
  let '(pincode, coords) := entry in
  let distance := Geolib.toNumber (getDistance userCoordinates coords) in
  if JS.lt distance (snd st)
  then (Some {| pincode := pincode; coords := coords |}, distance)
  else st.

Definition findNearestLocation (userCoordinates : Coordinates)
    (warehouseCoordinates : JS.object Coordinates) : option NearestLocation :=
  fst (fold_left (visit userCoordinates)
         (JS.Object_entries warehouseCoordinates)
         (None, JS.Infinity)).

(** What the two [let] variables hold once the entries [seen] have been
    visited: nothing as long as every distance was [NaN], or else the first
    entry of least distance so far, entries at distance [NaN] being passed
    over. *)
Inductive tracks (user : Coordinates) (seen : list (string * Coordinates))
    : state -> Prop :=
| tracks_nothing :
    (forall e, In e seen -> getDistance user (snd e) = Geolib.NaN) ->
    tracks user seen (None, JS.Infinity)
| tracks_first_least (id : string) (c : Coordinates) (m : Z) before after :
    seen = (before ++ (id, c) :: after)%list ->
    getDistance user c = Geolib.Metres m ->
    (forall e, In e before ->
       ~ Geolib.le (getDistance user (snd e)) (Geolib.Metres m)) ->
    (forall e, In e after ->
       ~ Geolib.lt (getDistance user (snd e)) (Geolib.Metres m)) ->
    tracks user seen (Some {| pincode := id; coords := c |}, JS.Num m).

End Scan.
End Nearest.

(* ================================================================== *)
(** * The outside world of one invocation *)
(* ================================================================== *)

(** One match of the Nominatim search: [{ lat, lon }] as decimal strings. *)
Record GeoMatch : Type := {
  lat : string;
  lon : string
}.

(** The product of the GraphQL answer.  The [edges]/[node] wrappers are
    dropped: a product is the list of its variants, a variant the list of the
    inventory levels of its inventory item, a level a location name and the
    list of its "available" quantities. *)
Module Shopify.

Record Level : Type := {
  location_name : string;
  quantities : list Z
}.

Record Variant : Type := {
  inventoryLevels : list Level
}.

Record Product : Type := {
  variants : list Variant
}.

(** The parsed body [{ data: { product }, errors }]: [data = None] when the
    [data] member is missing, [Some None] when [data.product] is [null]. *)
Record Result : Type := {
  data : option (option Product);
  errors : option (list string)
}.

(** What the POST comes back with: no answer at all, or a status (2xx or
    not) and a body ([None] for an empty one). *)
Inductive Reply : Type :=
| Unreachable
| Answer (ok : bool) (body : option Result).

End Shopify.

Record World : Type := {
  (** GET on the Nominatim URL: [None] when the request or its decoding
      fails, otherwise the array of matches. *)
  nominatim : string -> option (list GeoMatch);
  (** POST of the product query for a product identifier. *)
  shopify : string -> Shopify.Reply;
  (** [new Date()] moved forward by 5 days and formatted by
      [toLocaleDateString("en-US", ...)]. *)
  estimatedDeliveryDate : string
}.

(** Outbound calls, in the order they are issued. *)
Inductive Call : Type :=
| GET (url : string)
| POST (url : string) (productId : string).

(** ** Completions and the monad of an [async] function body *)

Inductive Error : Type :=
| TypeError
| SyntaxError
| RequestFailed
| ErrorOf (message : string).

Inductive Completion (A : Type) : Type :=
| Normal (a : A)
| Throw (e : Error).

Arguments Normal {A} a.
Arguments Throw {A} e.

Definition M (A : Type) : Type := list Call -> Completion A * list Call.

Definition ret {A : Type} (a : A) : M A := fun log => (Normal a, log).

Definition throw {A : Type} (e : Error) : M A := fun log => (Throw e, log).

Definition bind {A B : Type} (m : M A) (k : A -> M B) : M B :=
  fun log =>
    match m log with
    | (Normal a, log') => k a log'
    | (Throw e, log') => (Throw e, log')
    end.

(** [try { body } catch (error) { handler }] *)
Definition try_catch {A : Type} (body : M A) (handler : Error -> M A) : M A :=
  fun log =>
    match body log with
    | (Normal a, log') => (Normal a, log')
    | (Throw e, log') => handler e log'
    end.

Definition call (c : Call) : M unit := fun log => (Normal tt, (log ++ [c])%list).

(** Run an invocation from an empty call log. *)
Definition run {A : Type} (m : M A) : Completion A * list Call := m [].

Declare Scope js_scope.
Delimit Scope js_scope with js.
Notation "x <- m ;; k" := (bind m (fun x => k))
  (at level 61, m at next level, right associativity) : js_scope.
Notation "m ;;; k" := (bind m (fun _ => k))
  (at level 61, right associativity) : js_scope.

(* ================================================================== *)
(** * Responses *)
(* ================================================================== *)

Inductive Body : Type :=
| EmptyString_body
| JSON_stringify (fields : JS.object JS.value).

Record Response : Type := {
  statusCode : Z;
  headers : JS.object string;
  body : Body
}.

(** The parsed query string: [undefined] members are [None]. *)
Module Query.
Record Parameters : Type := {
  pincode : option string;
  productId : option string
}.
Definition empty : Parameters := {| pincode := None; productId := None |}.
End Query.

Record Event : Type := {
  httpMethod : string;
  queryStringParameters : option Query.Parameters
}.

(* ================================================================== *)
(** * Flattening the inventory (identical in both files) *)
(* ================================================================== *)

Record InventoryLevel : Type := {
  locationName : string;
  quantity : Z
}.

(** [level.node.quantities[0]?.quantity || 0] *)
Definition available (quantities : list Z) : Z :=
  match quantities with
  | [] => 0
  | q :: _ => if q =? 0 then 0 else q
  end.

Definition toInventoryLevel (level : Shopify.Level) : InventoryLevel :=
  {| locationName := Shopify.location_name level;
     quantity := available (Shopify.quantities level) |}.

(** [product.variants.edges.flatMap(variant => ... .edges.map(level => ...))] *)
Definition inventoryLevels (product : Shopify.Product) : list InventoryLevel :=
  flat_map (fun variant => map toInventoryLevel (Shopify.inventoryLevels variant))
    (Shopify.variants product).

(** The two [find] calls of the selection. *)
Definition availableInventory (inventoryLevels : list InventoryLevel)
    (nearestLocation : NearestLocation) : option InventoryLevel :=
  find (fun level =>
          match JS.get warehouseLocationMap (locationName level) with
          | Some id => String.eqb id (pincode nearestLocation)
          | None => false
          end && (0 <? quantity level))
    inventoryLevels.

Definition fallbackInventory (inventoryLevels : list InventoryLevel)
    : option InventoryLevel :=
  find (fun level => 0 <? quantity level) inventoryLevels.

Definition SHOPIFY_API_URL : string :=
  "https://ruhe-solution.myshopify.com/admin/api/2023-01/graphql.json".

Definition nominatim_url (pincode : string) : string :=
  "https://nominatim.openstreetmap.org/search?postalcode=" ++ pincode
    ++ "&country=India&format=json".

(* ================================================================== *)
(** * src/netlify/functions/checkPincode.js *)
(* ================================================================== *)

Module CheckPincode.
Section Handler.

Variable getDistance : Coordinates -> Coordinates -> Geolib.distance.
Variable parseFloat : string -> Angle.
Variable world : World.

(** [axios.get(url)], already at [response.data]; a failed request or a
    status outside 2xx rejects. *)
Definition axios_get (url : string) : M (list GeoMatch) :=
  (call (GET url) ;;;
   match nominatim world url with
   | Some data => ret data
   | None => throw RequestFailed
   end)%js.

Definition getCoordinatesFromPincode (pincode : string)
    : M (option Coordinates) :=
  let url := nominatim_url pincode in
  try_catch
    (data <- axios_get url ;;
     match data with
     | first :: _ =>
         ret (Some {| latitude := parseFloat (lat first);
                      longitude := parseFloat (lon first) |})
     | [] => throw (ErrorOf "No coordinates found for the given pincode.")
     end)%js
    (fun error => ret None).

(** [axios.post(SHOPIFY_API_URL, { query, variables: { productId } }, ...)],
    already at [shopifyResponse.data]. *)
Definition axios_post (url productId : string) : M (option Shopify.Result) :=
  (call (POST url productId) ;;;
   match shopify world productId with
   | Shopify.Unreachable => throw RequestFailed
   | Shopify.Answer false _ => throw RequestFailed
   | Shopify.Answer true body => ret body
   end)%js.

Definition cors : JS.object string := [("Access-Control-Allow-Origin", "*")].

Definition reply (status : Z) (fields : JS.object JS.value) : Response :=
  {| statusCode := status; headers := cors; body := JSON_stringify fields |}.

Definition preflight : Response :=
  {| statusCode := 204;
     headers := [ ("Access-Control-Allow-Origin", "*");
                  ("Access-Control-Allow-Methods", "GET, POST, OPTIONS");
                  ("Access-Control-Allow-Headers", "Content-Type") ];
     body := EmptyString_body |}.

Definition missingParameters : Response :=
  reply 400 [("error", JS.Str "Missing pincode or productId")].

Definition invalidPincode : Response :=
  reply 404 [("error", JS.Str "Invalid pincode. No coordinates found.")].

Definition productNotFound : Response :=
  reply 404 [("error", JS.Str "Product not found in Shopify")].

Definition noWarehouse : Response :=
  reply 404 [("error", JS.Str "No warehouse found near the provided pincode.")].

(** Nearest warehouse has stock. *)
Definition fulfilled (estimatedDeliveryDate : string)
    (availableInventory : InventoryLevel) : Response :=
  reply 200
    [("message",
      JS.Str ("Estimate Delivery " ++ estimatedDeliveryDate
              ++ ",  <br> Dispatch from "
              ++ locationName availableInventory ++ "."))].

(** Some other warehouse has stock. *)
Definition fallback (estimatedDeliveryDate : string)
    (fallbackInventory : InventoryLevel) : Response :=
  reply 200
    [("message",
      JS.Str ("Estimate Delivery " ++ estimatedDeliveryDate
              ++ ", <br> Dispatch from "
              ++ locationName fallbackInventory ++ "."))].

Definition outOfStock : Response :=
  reply 200 [("error", JS.Str "Product is out of stock at all locations.")].

Definition serverError : Response :=
  reply 500 [("error", JS.Str "Server error")].

(** The tail of the [try] block, from [availableInventory] on. *)
Definition dispatch (estimatedDeliveryDate : string)
    (inventoryLevels : list InventoryLevel)
    (nearestLocation : NearestLocation) : Response :=
  match availableInventory inventoryLevels nearestLocation with
  | Some availableInventory => fulfilled estimatedDeliveryDate availableInventory
  | None =>
      match fallbackInventory inventoryLevels with
      | Some fallbackInventory => fallback estimatedDeliveryDate fallbackInventory
      | None => outOfStock
      end
  end.

Definition handler (event : Event) : M Response :=
  if String.eqb (httpMethod event) "OPTIONS" then ret preflight
  else
    let parameters :=
      match queryStringParameters event with
      | Some q => q
      | None => Query.empty
      end in
    let pincode := Query.pincode parameters in
    let productId := Query.productId parameters in
    if negb (JS.truthy pincode) || negb (JS.truthy productId)
    then ret missingParameters
    else
      let estimatedDeliveryDate := estimatedDeliveryDate world in
      try_catch
        (userCoordinates <- getCoordinatesFromPincode (JS.toString pincode) ;;
         match userCoordinates with
         | None => ret invalidPincode
         | Some userCoordinates =>
             shopifyResponse <-
               axios_post SHOPIFY_API_URL (JS.toString productId) ;;
             match shopifyResponse with
             | None => ret productNotFound
             | Some result =>
                 match Shopify.data result with
                 | None => throw TypeError
                 | Some None => ret productNotFound
                 | Some (Some product) =>
                     let inventoryLevels := inventoryLevels product in
                     let nearestLocation :=
                       Nearest.findNearestLocation getDistance
                         userCoordinates warehouseCoordinates in
                     match nearestLocation with
                     | None => ret noWarehouse
                     | Some nearestLocation =>
                         ret (dispatch estimatedDeliveryDate
                                inventoryLevels nearestLocation)
                     end
                 end
             end
         end)%js
        (fun error => ret serverError).

End Handler.
End CheckPincode.

(* ================================================================== *)
(** * src/unnamed/part_000 *)
(* ================================================================== *)

Module Part000.
Section Handler.

Variable getDistance : Coordinates -> Coordinates -> Geolib.distance.
Variable parseFloat : string -> Angle.
Variable world : World.

(** [fetch(url)] followed by [response.json()]. *)
Definition fetch_json (url : string) : M (list GeoMatch) :=
  (call (GET url) ;;;
   match nominatim world url with
   | Some data => ret data
   | None => throw RequestFailed
   end)%js.

Definition getCoordinatesFromPincode (pincode : string) : M Coordinates :=
  let url := nominatim_url pincode in
  try_catch
    (data <- fetch_json url ;;
     match data with
     | first :: _ =>
         ret {| latitude := parseFloat (lat first);
                longitude := parseFloat (lon first) |}
     | [] => throw (ErrorOf "No coordinates found for the given pincode.")
     end)%js
    (fun error => throw error).

(** [fetch(SHOPIFY_API_URL, { method: "POST", ... })]: resolves with the
    response whatever its status. *)
Definition fetch_post (url productId : string)
    : M (bool * option Shopify.Result) :=
  (call (POST url productId) ;;;
   match shopify world productId with
   | Shopify.Unreachable => throw RequestFailed
   | Shopify.Answer ok body => ret (ok, body)
   end)%js.

(** [response.json()] *)
Definition json (body : option Shopify.Result) : M Shopify.Result :=
  match body with
  | Some result => ret result
  | None => throw SyntaxError
  end.

Definition reply (status : Z) (fields : JS.object JS.value) : Response :=
  {| statusCode := status; headers := []; body := JSON_stringify fields |}.

Definition missingParameters : Response :=
  reply 400 [("error", JS.Str "Missing pincode or productId")].

Definition upstreamError (errors : option (list string)) : Response :=
  reply 500
    [("error",
      match errors with
      | Some messages => JS.Errors messages
      | None => JS.Str "Error fetching product data"
      end)].

Definition productNotFound : Response :=
  reply 404 [("error", JS.Str "Product not found")].

Definition noWarehouse : Response :=
  reply 404 [("error", JS.Str "No warehouse found near the provided pincode.")].

Definition fulfilled (availableInventory : InventoryLevel) : Response :=
  reply 200
    [ ("warehouse", JS.Str (locationName availableInventory));
      ("quantity", JS.Number (quantity availableInventory));
      ("message",
       JS.Str ("Product is available at "
               ++ locationName availableInventory ++ ".")) ].

Definition fallback (fallbackInventory : InventoryLevel) : Response :=
  reply 200
    [ ("warehouse", JS.Str (locationName fallbackInventory));
      ("quantity", JS.Number (quantity fallbackInventory));
      ("message",
       JS.Str ("Product is not available near your pincode but is available at "
               ++ locationName fallbackInventory ++ ".")) ].

Definition outOfStock : Response :=
  reply 200 [("error", JS.Str "Product is out of stock at all locations.")].

Definition serverError : Response :=
  reply 500 [("error", JS.Str "Server error")].

(** The tail of the [try] block, from [availableInventory] on. *)
Definition dispatch (inventoryLevels : list InventoryLevel)
    (nearestLocation : NearestLocation) : Response :=
  match availableInventory inventoryLevels nearestLocation with
  | Some availableInventory => fulfilled availableInventory
  | None =>
      match fallbackInventory inventoryLevels with
      | Some fallbackInventory => fallback fallbackInventory
      | None => outOfStock
      end
  end.

Definition handler (event : Event) : M Response :=
  match queryStringParameters event with
  | None => throw TypeError
  | Some parameters =>
      let pincode := Query.pincode parameters in
      let productId := Query.productId parameters in
      if negb (JS.truthy pincode) || negb (JS.truthy productId)
      then ret missingParameters
      else
        try_catch
          (userCoordinates <- getCoordinatesFromPincode (JS.toString pincode) ;;
           response <- fetch_post SHOPIFY_API_URL (JS.toString productId) ;;
           result <- json (snd response) ;;
           if negb (fst response)
           then ret (upstreamError (Shopify.errors result))
           else
             match Shopify.data result with
             | None => throw TypeError
             | Some None => ret productNotFound
             | Some (Some product) =>
                 let inventoryLevels := inventoryLevels product in
                 let nearestLocation :=
                   Nearest.findNearestLocation getDistance
                     userCoordinates warehouseCoordinates in
                 match nearestLocation with
                 | None => ret noWarehouse
                 | Some nearestLocation =>
                     ret (dispatch inventoryLevels nearestLocation)
                 end
             end)%js
          (fun error => ret serverError)
  end.

End Handler.
End Part000.

(* ================================================================== *)
(** * Vocabulary of the statements *)
(* ================================================================== *)

(** The coordinates both [getCoordinatesFromPincode] build from the first
    match. *)
Definition located (parseFloat : string -> Angle) (place : GeoMatch)
    : Coordinates :=
  {| latitude := parseFloat (lat place); longitude := parseFloat (lon place) |}.

(** Every inventory-location entry of every variant of a product, in the
    order of the answer. *)
Definition entries (product : Shopify.Product) : list Shopify.Level :=
  flat_map Shopify.inventoryLevels (Shopify.variants product).

(** A member of the JSON body of a response. *)
Definition field (response : Response) (key : string) : option JS.value :=
  match body response with
  | JSON_stringify fields => JS.get fields key
  | EmptyString_body => None
  end.

(** The request carries both parameters, Nominatim knows the postal code
    (first match [place]) and Shopify answers 2xx with [product]. *)
Record Served (world : World) (event : Event) (postalCode productId : string)
    (place : GeoMatch) (product : Shopify.Product) : Prop := {
  served_query :
    queryStringParameters event
    = Some {| Query.pincode := Some postalCode;
              Query.productId := Some productId |};
  served_postalCode : postalCode <> "";
  served_productId : productId <> "";
  served_place :
    exists others,
      nominatim world (nominatim_url postalCode) = Some (place :: others);
  served_product :
    exists errors,
      shopify world productId
      = Shopify.Answer true
          (Some {| Shopify.data := Some (Some product);
                   Shopify.errors := errors |})
}.

(** The request names a product for which Shopify answers 2xx with
    [product]: the inventory the selection works on. *)
Definition selected (world : World) (event : Event)
    (product : Shopify.Product) : Prop :=
  exists parameters productId result,
    queryStringParameters event = Some parameters
    /\ Query.productId parameters = Some productId
    /\ shopify world productId = Shopify.Answer true (Some result)
    /\ Shopify.data result = Some (Some product).

(** The postal code or the product identifier is missing or empty. *)
Definition lacksParameter (parameters : Query.Parameters) : Prop :=
  JS.truthy (Query.pincode parameters) = false
  \/ JS.truthy (Query.productId parameters) = false.

(** The status codes the handlers write. *)
Definition statusCodes : list Z := [200; 204; 400; 404; 500].

(** The location name of the record is sent by [warehouseLocationMap] to
    the identifier of the warehouse. *)
Definition mapsTo (level : InventoryLevel) (warehouse : NearestLocation) : Prop :=
  JS.get warehouseLocationMap (locationName level) = Some (pincode warehouse).

(* ================================================================== *)
(** * Sample instances used by the closed examples *)
(* ================================================================== *)

Module Sample.

(** A stand-in for geolib's [getDistance]: thousandths of a degree along the
    two axes, rounded down, and [NaN] when a coordinate is [NaN]. *)
Definition taxicab (a b : Coordinates) : Geolib.distance :=
  match latitude a, longitude a, latitude b, longitude b with
  | Deg x, Deg y, Deg x', Deg y' =>
      Geolib.Metres (Qfloor (1000 * (Qabs (x - x') + Qabs (y - y')))%Q)
  | _, _, _, _ => Geolib.NaN
  end.

(** A [parseFloat] that knows the two numerals of the sample answer; any
    other string stands for one that is not a numeral. *)
Definition parseFloat (s : string) : Angle :=
  if String.eqb s "28.65" then Deg 28.65
  else if String.eqb s "77.20" then Deg 77.2
  else NotANumber.

(** Connaught Place, New Delhi. *)
Definition delhi : Coordinates := {| latitude := Deg 28.65; longitude := Deg 77.2 |}.

(** Two warehouses at the same distance from [delhi], written in the order
    "382213" then "110042". *)
Definition twins : JS.object Coordinates :=
  [ ("382213", {| latitude := Deg 28.65; longitude := Deg 78.2 |});
    ("110042", {| latitude := Deg 28.65; longitude := Deg 76.2 |});
    ("562123", {| latitude := Deg 12.9716; longitude := Deg 77.5946 |}) ].

Definition level (name : string) (quantities : list Z) : Shopify.Level :=
  {| Shopify.location_name := name; Shopify.quantities := quantities |}.

Definition product (levels : list Shopify.Level) : Shopify.Product :=
  {| Shopify.variants := [ {| Shopify.inventoryLevels := levels |} ] |}.

(** Stock in Delhi (nearest to [delhi]) and in Kundli. *)
Definition stockedNearby : Shopify.Product :=
  product [ level "Kundli Warehouse" [4]; level "Delhi Warehouse" [2] ].

(** Stock in Bangalore only; the Delhi entry carries no quantity. *)
Definition stockedFarAway : Shopify.Product :=
  product [ level "Delhi Warehouse" []; level "Emiza Blr Warehouse" [7] ].

(** No stock anywhere. *)
Definition soldOut : Shopify.Product :=
  product [ level "Delhi Warehouse" [0]; level "Kundli Warehouse" [] ].

Definition world (p : Shopify.Product) : World :=
  {| nominatim := fun _ => Some [ {| lat := "28.65"; lon := "77.20" |} ];
     shopify := fun _ =>
       Shopify.Answer true
         (Some {| Shopify.data := Some (Some p); Shopify.errors := None |});
     estimatedDeliveryDate := "Saturday, Nov 7" |}.

Definition request (method : string) (pincode productId : option string)
    : Event :=
  {| httpMethod := method;
     queryStringParameters :=
       Some {| Query.pincode := pincode; Query.productId := productId |} |}.

Definition order : Event :=
  request "GET" (Some "110001") (Some "gid://shopify/Product/1").

(** The first match of the sample answer. *)
Definition place : GeoMatch := {| lat := "28.65"; lon := "77.20" |}.

(** The warehouse nearest to [delhi] in [warehouseCoordinates]. *)
Definition nearest : NearestLocation :=
  {| pincode := "110042";
     coords := {| latitude := Deg 28.7041; longitude := Deg 77.1025 |} |}.

(** [order] is served in every [world p]. *)
Ltac served :=
  constructor;
  [ reflexivity | discriminate | discriminate
  | exists []; reflexivity | exists None; reflexivity ].

End Sample.

(* ================================================================== *)
(** * Further vocabulary and scenarios *)
(* ================================================================== *)

(** The request carries a non-empty postal code and a non-empty product
    identifier. *)
Definition Asks (event : Event) (postalCode productId : string) : Prop :=
  queryStringParameters event
  = Some {| Query.pincode := Some postalCode;
            Query.productId := Some productId |}
  /\ postalCode <> "" /\ productId <> "".

(** Nominatim has no first match for the postal code: the request failed or
    the array of matches is empty. *)
Definition Unresolved (world : World) (postalCode : string) : Prop :=
  nominatim world (nominatim_url postalCode) = None
  \/ nominatim world (nominatim_url postalCode) = Some nil.

(** The two calls of a request that gets as far as Shopify. *)
Definition bothCalls (postalCode productId : string) : list Call :=
  [ GET (nominatim_url postalCode); POST SHOPIFY_API_URL productId ].

(** What the request asks for in [checkPincode.js], where a missing
    query-parameter object is read as [{}]. *)
Definition parametersOf (event : Event) : Query.Parameters :=
  match queryStringParameters event with
  | Some parameters => parameters
  | None => Query.empty
  end.

(** Calls in order: nothing, or the GET alone when the postal code is not
    resolved, or the GET followed by the POST when it is. *)
Definition inOrder (world : World) (event : Event) (calls : list Call) : Prop :=
  calls = nil
  \/ exists postalCode productId,
       Asks event postalCode productId
       /\ ((Unresolved world postalCode
            /\ calls = [ GET (nominatim_url postalCode) ])
           \/ ((exists place others,
                  nominatim world (nominatim_url postalCode)
                  = Some (place :: others))
               /\ calls = bothCalls postalCode productId)).

(** The three shapes of a response: the empty preflight answer, a body with
    an [error] member and no [message], or a 200 body with a [message] and
    no [error]. *)
Definition wellShaped (response : Response) : Prop :=
  (statusCode response = 204 /\ body response = EmptyString_body)
  \/ (field response "error" <> None /\ field response "message" = None)
  \/ (statusCode response = 200
      /\ field response "message" <> None
      /\ field response "error" = None).

(** The header every response of [checkPincode.js] is written with. *)
Definition allowsAnyOrigin (response : Response) : Prop :=
  JS.get (headers response) "Access-Control-Allow-Origin" = Some "*".

Module Scenario.

(** A world in which Nominatim and Shopify give the same answer to every
    call. *)
Definition world (matches : option (list GeoMatch)) (reply : Shopify.Reply)
    : World :=
  {| nominatim := fun _ => matches;
     shopify := fun _ => reply;
     estimatedDeliveryDate := "Saturday, Nov 7" |}.

Definition found : option (list GeoMatch) := Some [ Sample.place ].

(** Coordinates that are not numbers. *)
Definition nowhere : Coordinates :=
  {| latitude := NotANumber; longitude := NotANumber |}.

(** A match whose [lat] is not a numeral. *)
Definition unparsed : GeoMatch := {| lat := "abc"; lon := "77.20" |}.

(** The world of a request that Nominatim answers with [unparsed] and
    Shopify with [p]. *)
Definition unlocated (p : Shopify.Product) : World :=
  world (Some [ unparsed ])
    (Shopify.Answer true
       (Some {| Shopify.data := Some (Some p); Shopify.errors := None |})).

(** A parsed GraphQL body. *)
Definition result (data : option (option Shopify.Product))
    (errors : option (list string)) : Shopify.Result :=
  {| Shopify.data := data; Shopify.errors := errors |}.

(** Two variants stocked in Delhi: the first one sold out there. *)
Definition twoVariants : Shopify.Product :=
  {| Shopify.variants :=
       [ {| Shopify.inventoryLevels :=
              [ Sample.level "Delhi Warehouse" [0];
                Sample.level "Kundli Warehouse" [5] ] |};
         {| Shopify.inventoryLevels :=
              [ Sample.level "Delhi Warehouse" [3];
                Sample.level "Delhi Warehouse" [9] ] |} ] |}.

End Scenario.

(* ================================================================== *)
(** * Facts about [Object.entries] *)
(* ================================================================== *)

Local Open Scope list_scope.

Module EntriesFacts.
Section Entries.

Context {A : Type}.

Lemma insert_index_perm (i : N) (e : string * A) sorted :
  Permutation (JS.insert_index i e sorted) ((i, e) :: sorted).
Proof.
  induction sorted as [|[j e'] rest IH]; simpl.
  - apply Permutation_refl.
  - destruct (i <? j)%N.
    + apply Permutation_refl.
    + eapply perm_trans; [apply perm_skip, IH | apply perm_swap].
Qed.

Lemma index_properties_perm (obj : JS.object A) :
  Permutation (map snd (JS.index_properties obj))
              (filter JS.is_index_key obj).
Proof.
  induction obj as [|e rest IH]; simpl.
  - apply Permutation_refl.
  - unfold JS.is_index_key at 1.
    destruct (JS.array_index (fst e)) as [i|].
    + eapply perm_trans.
      * apply Permutation_map, insert_index_perm.
      * simpl. apply perm_skip, IH.
    + exact IH.
Qed.

Lemma partition_perm (f : string * A -> bool) (l : list (string * A)) :
  Permutation (filter f l ++ filter (fun e => negb (f e)) l) l.
Proof.
  induction l as [|e rest IH]; simpl.
  - apply Permutation_refl.
  - destruct (f e); simpl.
    + apply perm_skip, IH.
    + apply Permutation_sym, Permutation_cons_app, Permutation_sym, IH.
Qed.

(** [Object.entries] lists every own property exactly once. *)
Lemma Object_entries_perm (obj : JS.object A) :
  Permutation (JS.Object_entries obj) obj.
Proof.
  unfold JS.Object_entries.
  eapply perm_trans.
  - apply Permutation_app_tail, index_properties_perm.
  - apply partition_perm.
Qed.

Lemma Object_entries_In (obj : JS.object A) (e : string * A) :
  In e (JS.Object_entries obj) <-> In e obj.
Proof.
  split; apply Permutation_in.
  - apply Object_entries_perm.
  - apply Permutation_sym, Object_entries_perm.
Qed.

Lemma Object_entries_nil (obj : JS.object A) :
  JS.Object_entries obj = [] <-> obj = [].
Proof.
  split; intro H.
  - apply Permutation_nil. rewrite <- H.
    apply Object_entries_perm.
  - subst obj. reflexivity.
Qed.

(** Without array-index keys the order is the creation order. *)
Lemma Object_entries_creation_order (obj : JS.object A) :
  (forall e, In e obj -> JS.array_index (fst e) = None) ->
  JS.Object_entries obj = obj.
Proof.
  intros Hkeys. unfold JS.Object_entries.
  assert (Hidx : JS.index_properties obj = []).
  { induction obj as [|e rest IH]; simpl; [reflexivity|].
    rewrite (Hkeys e (or_introl eq_refl)).
    apply IH. intros e' He'. apply Hkeys. now right. }
  rewrite Hidx. simpl.
  induction obj as [|e rest IH]; simpl; [reflexivity|].
  unfold JS.is_index_key at 1.
  rewrite (Hkeys e (or_introl eq_refl)). simpl.
  f_equal. apply IH.
  - intros e' He'. apply Hkeys. now right.
  - simpl in Hidx. rewrite (Hkeys e (or_introl eq_refl)) in Hidx. exact Hidx.
Qed.

End Entries.

(** The registry is visited by ascending pincode, not as written. *)
Example warehouseCoordinates_order :
  map fst (JS.Object_entries warehouseCoordinates)
  = ["110042"; "131028"; "382213"; "562123"].
Proof. reflexivity. Qed.

End EntriesFacts.

(* ================================================================== *)
(** * The nearest-warehouse scan *)
(* ================================================================== *)

Module NearestFacts.
Section Scan.

Variable getDistance : Coordinates -> Coordinates -> Geolib.distance.
Variable user : Coordinates.

Local Abbreviation d c := (getDistance user c).
Local Abbreviation scan := (fold_left (Nearest.visit getDistance user)).
Local Abbreviation tracks := (Nearest.tracks getDistance user).

(** One step of the scan, by what [getDistance] answers. *)
Lemma visit_NaN st (id : string) (c : Coordinates) :
  d c = Geolib.NaN -> Nearest.visit getDistance user st (id, c) = st.
Proof. intros Hc. unfold Nearest.visit. now rewrite Hc. Qed.

Lemma visit_takes st (id : string) (c : Coordinates) (m : Z) :
  d c = Geolib.Metres m ->
  JS.lt (JS.Num m) (snd st) = true ->
  Nearest.visit getDistance user st (id, c)
  = (Some {| pincode := id; coords := c |}, JS.Num m).
Proof.
  intros Hc Hlt. unfold Nearest.visit. rewrite Hc. cbn [Geolib.toNumber].
  now rewrite Hlt.
Qed.

Lemma visit_passes st (id : string) (c : Coordinates) :
  JS.lt (Geolib.toNumber (d c)) (snd st) = false ->
  Nearest.visit getDistance user st (id, c) = st.
Proof. intros Hlt. unfold Nearest.visit. now rewrite Hlt. Qed.

Lemma not_le_after (a : Geolib.distance) (m k : Z) :
  ~ Geolib.le a (Geolib.Metres m) -> k <= m ->
  ~ Geolib.le a (Geolib.Metres k).
Proof. destruct a; simpl; [lia | tauto]. Qed.

Lemma not_lt_after (a : Geolib.distance) (m k : Z) :
  ~ Geolib.lt a (Geolib.Metres m) -> k < m ->
  ~ Geolib.le a (Geolib.Metres k).
Proof. destruct a; simpl; [lia | tauto]. Qed.

Lemma tracks_visit seen st e :
  tracks seen st -> tracks (seen ++ [e]) (Nearest.visit getDistance user st e).
Proof.
  intros [Hnone | id c m before after Hseen Hc Hbefore Hafter];
    destruct e as [id' c']; destruct (d c') as [k|] eqn:Hc'.
  - rewrite (visit_takes (None, JS.Infinity) id' c' k Hc' eq_refl).
    apply (Nearest.tracks_first_least _ _ _ id' c' k seen []);
      [reflexivity | exact Hc' | | intros e []].
    intros e He. rewrite (Hnone e He). simpl. tauto.
  - rewrite (visit_NaN _ id' c' Hc'). apply Nearest.tracks_nothing.
    intros e He. apply in_app_or in He.
    destruct He as [He | [<- | []]]; [now apply Hnone | exact Hc'].
  - destruct (Z.ltb_spec k m) as [Hlt | Hge].
    + rewrite (visit_takes _ id' c' k Hc');
        [|simpl; now apply Z.ltb_lt].
      apply (Nearest.tracks_first_least _ _ _ id' c' k seen []);
        [reflexivity | exact Hc' | | intros e []].
      intros e He. subst seen. apply in_app_or in He.
      destruct He as [He | [<- | He]].
      * apply (not_le_after _ m k); [now apply Hbefore | lia].
      * simpl. rewrite Hc. simpl. lia.
      * apply (not_lt_after _ m k); [now apply Hafter | exact Hlt].
    + rewrite visit_passes;
        [|rewrite Hc'; simpl; now apply Z.ltb_ge].
      apply (Nearest.tracks_first_least _ _ _ id c m before
               (after ++ [(id', c')])); try assumption.
      * subst seen. now rewrite <- app_assoc.
      * intros e He. apply in_app_or in He.
        destruct He as [He | [<- | []]]; [now apply Hafter|].
        simpl. rewrite Hc'. simpl. lia.
  - rewrite (visit_NaN _ id' c' Hc').
    apply (Nearest.tracks_first_least _ _ _ id c m before
             (after ++ [(id', c')])); try assumption.
    + subst seen. now rewrite <- app_assoc.
    + intros e He. apply in_app_or in He.
      destruct He as [He | [<- | []]]; [now apply Hafter|].
      simpl. rewrite Hc'. simpl. tauto.
Qed.

Lemma tracks_scan entries : forall seen st,
  tracks seen st -> tracks (seen ++ entries) (scan entries st).
Proof.
  induction entries as [|e rest IH]; intros seen st Hst; simpl.
  - now rewrite app_nil_r.
  - replace (seen ++ e :: rest) with ((seen ++ [e]) ++ rest)
      by now rewrite <- app_assoc.
    apply IH, tracks_visit, Hst.
Qed.

Lemma tracks_entries (registry : JS.object Coordinates) :
  tracks (JS.Object_entries registry)
         (scan (JS.Object_entries registry) (None, JS.Infinity)).
Proof.
  apply (tracks_scan (JS.Object_entries registry) [] (None, JS.Infinity)).
  constructor. intros e [].
Qed.

(** Entries that are strictly farther than [m] leave the minimum above [m]. *)
Lemma scan_above (m : Z) entries : forall st,
  (forall e, In e entries -> Geolib.lt (Geolib.Metres m) (d (snd e))) ->
  JS.lt (JS.Num m) (snd st) = true ->
  JS.lt (JS.Num m) (snd (scan entries st)) = true.
Proof.
  induction entries as [|[id c] rest IH]; intros st Hfar Hst.
  - exact Hst.
  - cbn [fold_left]. apply IH.
    + intros e He. apply Hfar. now right.
    + pose proof (Hfar (id, c) (or_introl eq_refl)) as Hc. simpl in Hc.
      destruct (d c) as [k|] eqn:Hk; [|contradiction].
      destruct (JS.lt (JS.Num k) (snd st)) eqn:Htaken.
      * rewrite (visit_takes _ id c k Hk Htaken). simpl.
        now apply Z.ltb_lt.
      * rewrite visit_passes; [exact Hst | now rewrite Hk].
Qed.

(** Entries that are not nearer than the current minimum change nothing. *)
Lemma scan_keeps (m : Z) entries : forall best,
  (forall e, In e entries -> ~ Geolib.lt (d (snd e)) (Geolib.Metres m)) ->
  scan entries (best, JS.Num m) = (best, JS.Num m).
Proof.
  induction entries as [|[id c] rest IH]; intros best Hfar.
  - reflexivity.
  - cbn [fold_left].
    pose proof (Hfar (id, c) (or_introl eq_refl)) as Hc. simpl in Hc.
    rewrite visit_passes.
    + apply IH. intros e He. apply Hfar. now right.
    + destruct (d c) as [k|]; [|reflexivity].
      simpl in *. apply Z.ltb_ge. lia.
Qed.

(** What the scan answers: nothing exactly when every distance is [NaN],
    and otherwise an entry of the registry that no entry is nearer than. *)
Lemma nothing_iff (registry : JS.object Coordinates) :
  Nearest.findNearestLocation getDistance user registry = None
  <-> forall e, In e registry -> d (snd e) = Geolib.NaN.
Proof.
  unfold Nearest.findNearestLocation.
  destruct (tracks_entries registry)
    as [Hnone | id c m before after Hseen Hc Hbefore Hafter]; simpl.
  - split; [|reflexivity]. intros _ e He. apply Hnone.
    now apply EntriesFacts.Object_entries_In.
  - split; [discriminate|]. intros Hnone.
    assert (Hin : In (id, c) registry).
    { apply EntriesFacts.Object_entries_In. rewrite Hseen. apply in_elt. }
    specialize (Hnone _ Hin). simpl in Hnone. congruence.
Qed.

Lemma found_is_least (registry : JS.object Coordinates)
    (nearest : NearestLocation) :
  Nearest.findNearestLocation getDistance user registry = Some nearest ->
  exists m,
    d (coords nearest) = Geolib.Metres m
    /\ In (pincode nearest, coords nearest) registry
    /\ forall e, In e registry -> ~ Geolib.lt (d (snd e)) (Geolib.Metres m).
Proof.
  unfold Nearest.findNearestLocation.
  destruct (tracks_entries registry)
    as [Hnone | id c m before after Hseen Hc Hbefore Hafter];
    [discriminate|].
  intros [= <-]. simpl. exists m. split; [exact Hc|]. split.
  - apply EntriesFacts.Object_entries_In. rewrite Hseen. apply in_elt.
  - intros e He. apply EntriesFacts.Object_entries_In in He.
    rewrite Hseen in He. apply in_app_or in He.
    destruct He as [He | [<- | He]].
    + specialize (Hbefore e He).
      destruct (d (snd e)); simpl in *; [lia | tauto].
    + simpl. rewrite Hc. simpl. lia.
    + now apply Hafter.
Qed.

End Scan.
End NearestFacts.

(** C1, as the code has it: for every non-empty warehouse registry and every
    user coordinate pair whose distance to each entry is a number,
    [findNearestLocation] returns an entry of the registry whose distance to
    the user is at most the distance of every entry of the registry. *)
Theorem findNearestLocation_minimal
    (getDistance : Coordinates -> Coordinates -> Geolib.distance)
    (user : Coordinates) (registry : JS.object Coordinates) :
  registry <> [] ->
  (forall e, In e registry -> getDistance user (snd e) <> Geolib.NaN) ->
  exists nearest,
    Nearest.findNearestLocation getDistance user registry = Some nearest
    /\ In (pincode nearest, coords nearest) registry
    /\ forall id c, In (id, c) registry ->
         Geolib.le (getDistance user (coords nearest)) (getDistance user c).
Proof.
  intros Hne Hnumbers.
  destruct (Nearest.findNearestLocation getDistance user registry)
    as [nearest|] eqn:Hfound.
  - exists nearest. split; [reflexivity|].
    destruct (NearestFacts.found_is_least _ _ _ _ Hfound)
      as (m & Hm & Hin & Hleast).
    split; [exact Hin|].
    intros id c Hc. rewrite Hm.
    specialize (Hleast _ Hc). specialize (Hnumbers _ Hc). simpl in *.
    destruct (getDistance user c) as [k|]; simpl in *; [lia | congruence].
  - exfalso. destruct registry as [|e rest]; [now apply Hne|].
    apply (Hnumbers e (or_introl eq_refl)).
    apply (proj1 (NearestFacts.nothing_iff _ _ _) Hfound). now left.
Qed.

Lemma findNearestLocation_minimal_witness :
  exists nearest,
    Nearest.findNearestLocation Sample.taxicab Sample.delhi
      warehouseCoordinates = Some nearest
    /\ In (pincode nearest, coords nearest) warehouseCoordinates
    /\ forall id c, In (id, c) warehouseCoordinates ->
         Geolib.le (Sample.taxicab Sample.delhi (coords nearest))
                   (Sample.taxicab Sample.delhi c).
Proof.
  apply (findNearestLocation_minimal Sample.taxicab Sample.delhi
           warehouseCoordinates).
  - discriminate.
  - intros e [<- | [<- | [<- | [<- | []]]]]; vm_compute; discriminate.
Defined.

(** C1 fails as stated: at user coordinates that are not numbers every
    distance is [NaN], no comparison succeeds, and the scan returns [null]
    on a registry of three warehouses. *)
Lemma nearest_of_NaN_coordinates :
  Sample.twins <> []
  /\ Nearest.findNearestLocation Sample.taxicab Scenario.nowhere Sample.twins
     = None
  /\ ~ exists nearest,
         Nearest.findNearestLocation Sample.taxicab Scenario.nowhere
           Sample.twins = Some nearest.
Proof.
  split; [discriminate|]. split; [reflexivity|].
  intros [nearest H]. discriminate H.
Qed.

(** C2: when several warehouses attain the minimum distance, the one that
    comes first in the iteration order of the registry ([Object.entries]) is
    returned; the result depends on the registry through that order only. *)
Theorem findNearestLocation_first_tie
    (getDistance : Coordinates -> Coordinates -> Geolib.distance)
    (user : Coordinates) (registry : JS.object Coordinates)
    (before : list (string * Coordinates)) (id : string) (c : Coordinates)
    (after : list (string * Coordinates)) :
  JS.Object_entries registry = before ++ (id, c) :: after ->
  (forall e, In e registry ->
     Geolib.le (getDistance user c) (getDistance user (snd e))) ->
  (forall e, In e before -> getDistance user (snd e) <> getDistance user c) ->
  Nearest.findNearestLocation getDistance user registry
    = Some {| pincode := id; coords := c |}
  /\ forall registry',
       JS.Object_entries registry' = JS.Object_entries registry ->
       Nearest.findNearestLocation getDistance user registry'
         = Some {| pincode := id; coords := c |}.
Proof.
  intros Hentries Hmin Hfirst.
  assert (Hall : forall e, In e (before ++ (id, c) :: after) ->
                   Geolib.le (getDistance user c) (getDistance user (snd e))).
  { intros e He. apply Hmin. apply EntriesFacts.Object_entries_In.
    now rewrite Hentries. }
  destruct (getDistance user c) as [m|] eqn:Hc;
    [|now destruct (Hall (id, c) (in_elt _ _ _))].
  assert (Hscan :
    fold_left (Nearest.visit getDistance user)
      (JS.Object_entries registry) (None, JS.Infinity)
    = (Some {| pincode := id; coords := c |}, JS.Num m)).
  { rewrite Hentries, fold_left_app. cbn [fold_left].
    rewrite (NearestFacts.visit_takes _ _ _ id c m Hc).
    - apply NearestFacts.scan_keeps.
      intros e He.
      assert (Hle : Geolib.le (Geolib.Metres m) (getDistance user (snd e)))
        by (apply Hall, in_or_app; right; now right).
      destruct (getDistance user (snd e)); simpl in *; [lia | tauto].
    - apply NearestFacts.scan_above; [|reflexivity].
      intros e He.
      assert (Hle : Geolib.le (Geolib.Metres m) (getDistance user (snd e)))
        by (apply Hall, in_or_app; now left).
      specialize (Hfirst e He).
      destruct (getDistance user (snd e)) as [k|]; simpl in *; [|tauto].
      assert (k <> m) by congruence. lia. }
  unfold Nearest.findNearestLocation. split.
  - now rewrite Hscan.
  - intros registry' Hsame. now rewrite Hsame, Hscan.
Qed.

Lemma findNearestLocation_first_tie_witness :
  Nearest.findNearestLocation Sample.taxicab Sample.delhi Sample.twins
    = Some {| pincode := "110042";
              coords := {| latitude := Deg 28.65; longitude := Deg 76.2 |} |}
  /\ Sample.taxicab Sample.delhi
       {| latitude := Deg 28.65; longitude := Deg 76.2 |}
     = Sample.taxicab Sample.delhi
         {| latitude := Deg 28.65; longitude := Deg 78.2 |}.
Proof.
  split; [|reflexivity].
  refine (proj1 (findNearestLocation_first_tie Sample.taxicab Sample.delhi
           Sample.twins []
           "110042" {| latitude := Deg 28.65; longitude := Deg 76.2 |}
           [ ("382213", {| latitude := Deg 28.65; longitude := Deg 78.2 |});
             ("562123",
              {| latitude := Deg 12.9716; longitude := Deg 77.5946 |}) ]
           _ _ _)).
  - reflexivity.
  - intros e [He | [He | [He | []]]]; subst e; vm_compute; discriminate.
  - intros e [].
Defined.

(** A registry with an entry at a distance that is a number always yields a
    warehouse. *)
Lemma findNearestLocation_some
    (getDistance : Coordinates -> Coordinates -> Geolib.distance)
    (user : Coordinates) (registry : JS.object Coordinates)
    (e : string * Coordinates) :
  In e registry -> getDistance user (snd e) <> Geolib.NaN ->
  exists nearest,
    Nearest.findNearestLocation getDistance user registry = Some nearest.
Proof.
  intros Hin Hnumber.
  destruct (Nearest.findNearestLocation getDistance user registry)
    as [nearest|] eqn:Hfound; [now exists nearest|].
  destruct Hnumber.
  exact (proj1 (NearestFacts.nothing_iff _ _ _) Hfound e Hin).
Qed.

(** C9, as the code has it: [findNearestLocation] returns [null] exactly
    when no entry of the registry is at a distance that is a number, which
    includes the empty registry; on a registry with such an entry it returns
    a warehouse, and a warehouse it returns is an entry of the registry. *)
Theorem findNearestLocation_null_iff_unmeasured
    (getDistance : Coordinates -> Coordinates -> Geolib.distance)
    (user : Coordinates) (registry : JS.object Coordinates) :
  (Nearest.findNearestLocation getDistance user registry = None
   <-> forall e, In e registry -> getDistance user (snd e) = Geolib.NaN)
  /\ (registry = [] ->
      Nearest.findNearestLocation getDistance user registry = None)
  /\ (forall e, In e registry -> getDistance user (snd e) <> Geolib.NaN ->
      exists nearest,
        Nearest.findNearestLocation getDistance user registry = Some nearest)
  /\ (forall nearest,
        Nearest.findNearestLocation getDistance user registry = Some nearest ->
        In (pincode nearest, coords nearest) registry
        /\ getDistance user (coords nearest) <> Geolib.NaN).
Proof.
  split; [apply NearestFacts.nothing_iff|]. split; [|split].
  - intros ->. reflexivity.
  - intros e Hin Hnumber.
    destruct (Nearest.findNearestLocation getDistance user registry)
      as [nearest|] eqn:Hfound; [now exists nearest|].
    destruct Hnumber.
    exact (proj1 (NearestFacts.nothing_iff _ _ _) Hfound e Hin).
  - intros nearest Hfound.
    destruct (NearestFacts.found_is_least _ _ _ _ Hfound)
      as (m & Hm & Hin & _).
    split; [exact Hin | congruence].
Qed.

(** C9 fails as stated: when the first match of the geocoder does not parse,
    the scan returns [null] on the four-entry registry of the handlers. *)
Lemma null_on_the_registry :
  warehouseCoordinates <> []
  /\ Nearest.findNearestLocation Sample.taxicab
       (located Sample.parseFloat Scenario.unparsed) warehouseCoordinates
     = None.
Proof. split; [discriminate | reflexivity]. Qed.

(* ================================================================== *)
(** * Flattening the inventory *)
(* ================================================================== *)

Module InventoryFacts.

Lemma inventoryLevels_map (product : Shopify.Product) :
  inventoryLevels product = map toInventoryLevel (entries product).
Proof.
  unfold inventoryLevels, entries.
  induction (Shopify.variants product) as [|variant rest IH]; simpl.
  - reflexivity.
  - now rewrite map_app, IH.
Qed.

Lemma entries_length (product : Shopify.Product) :
  List.length (entries product)
  = list_sum (map (fun variant => List.length (Shopify.inventoryLevels variant))
                (Shopify.variants product)).
Proof.
  unfold entries.
  induction (Shopify.variants product) as [|variant rest IH]; simpl.
  - reflexivity.
  - now rewrite length_app, IH.
Qed.

Lemma available_positive (quantities : list Z) :
  0 < available quantities ->
  exists q rest, quantities = q :: rest /\ available quantities = q.
Proof.
  destruct quantities as [|q rest]; simpl; [lia|].
  destruct (Z.eqb_spec q 0); [lia|]. intros _. now exists q, rest.
Qed.

End InventoryFacts.

(** C6: the flattening yields one record per inventory-location entry of
    every variant, so their number is the sum over the variants of the number
    of entries of each; the [i]-th record carries the location name of the
    [i]-th entry, and quantity 0 when that entry has no available-quantity
    member. *)
Theorem inventoryLevels_count (product : Shopify.Product) :
  List.length (inventoryLevels product)
  = list_sum (map (fun variant => List.length (Shopify.inventoryLevels variant))
                (Shopify.variants product))
  /\ forall (i : nat) (level : Shopify.Level),
       nth_error (entries product) i = Some level ->
       exists record,
         nth_error (inventoryLevels product) i = Some record
         /\ locationName record = Shopify.location_name level
         /\ (Shopify.quantities level = [] -> quantity record = 0).
Proof.
  rewrite InventoryFacts.inventoryLevels_map, length_map. split.
  - apply InventoryFacts.entries_length.
  - intros i level Hlevel. exists (toInventoryLevel level).
    split; [|split].
    + rewrite nth_error_map, Hlevel. reflexivity.
    + reflexivity.
    + intros Hnone. simpl. now rewrite Hnone.
Qed.

(* ================================================================== *)
(** * The two-tier selection *)
(* ================================================================== *)

Module SelectionFacts.

(** [Array.prototype.find]: the first element that passes. *)
Lemma find_first {A : Type} (p : A -> bool) (l : list A) (x : A) :
  find p l = Some x ->
  exists before after,
    l = before ++ x :: after /\ p x = true
    /\ forall y, In y before -> p y = false.
Proof.
  induction l as [|a rest IH]; simpl; [discriminate|].
  destruct (p a) eqn:Hpa.
  - intros [= ->]. exists [], rest. simpl. tauto.
  - intros Hfind. destruct (IH Hfind) as (before & after & -> & Hx & Hbefore).
    exists (a :: before), after. simpl. split; [reflexivity|]. split; [exact Hx|].
    intros y [<- | Hy]; [exact Hpa | now apply Hbefore].
Qed.

Lemma find_passes {A : Type} (p : A -> bool) (l : list A) (x : A) :
  In x l -> p x = true -> exists y, find p l = Some y.
Proof.
  intros Hin Hpx. destruct (find p l) as [y|] eqn:Hfind.
  - now exists y.
  - now rewrite (find_none p l Hfind x Hin) in Hpx.
Qed.

Lemma id_eqb_mapsTo (level : InventoryLevel) (nearest : NearestLocation) :
  match JS.get warehouseLocationMap (locationName level) with
  | Some id => String.eqb id (pincode nearest)
  | None => false
  end = true <-> mapsTo level nearest.
Proof.
  unfold mapsTo.
  destruct (JS.get warehouseLocationMap (locationName level)) as [id|].
  - rewrite String.eqb_eq. split; [now intros -> | now intros [= ->]].
  - split; discriminate.
Qed.

(** What the first [find] answers. *)
Lemma availableInventory_some levels nearest (a : InventoryLevel) :
  availableInventory levels nearest = Some a ->
  In a levels /\ mapsTo a nearest /\ 0 < quantity a.
Proof.
  unfold availableInventory. intros Hfind.
  destruct (find_some _ _ Hfind) as [Hin Hpass].
  apply andb_prop in Hpass. destruct Hpass as [Hmap Hqty].
  apply id_eqb_mapsTo in Hmap. apply Z.ltb_lt in Hqty. tauto.
Qed.

Lemma availableInventory_found levels nearest (r : InventoryLevel) :
  In r levels -> mapsTo r nearest -> 0 < quantity r ->
  exists a, availableInventory levels nearest = Some a.
Proof.
  intros Hin Hmap Hqty. unfold availableInventory.
  apply (find_passes _ levels r Hin).
  apply andb_true_intro. split.
  - now apply id_eqb_mapsTo.
  - now apply Z.ltb_lt.
Qed.

Lemma availableInventory_none levels nearest :
  (forall r, In r levels -> 0 < quantity r -> ~ mapsTo r nearest) ->
  availableInventory levels nearest = None.
Proof.
  intros Hnone.
  destruct (availableInventory levels nearest) as [a|] eqn:Hfind;
    [|reflexivity].
  apply availableInventory_some in Hfind.
  destruct Hfind as (Hin & Hmap & Hqty). now destruct (Hnone a Hin Hqty).
Qed.

(** What the second [find] answers. *)
Lemma fallbackInventory_some levels (f : InventoryLevel) :
  fallbackInventory levels = Some f ->
  exists before after,
    levels = before ++ f :: after /\ 0 < quantity f
    /\ forall r, In r before -> quantity r <= 0.
Proof.
  unfold fallbackInventory. intros Hfind.
  destruct (find_first _ _ _ Hfind) as (before & after & Hsplit & Hf & Hbefore).
  exists before, after. split; [exact Hsplit|]. split.
  - now apply Z.ltb_lt.
  - intros r Hr. specialize (Hbefore r Hr). apply Z.ltb_ge in Hbefore. lia.
Qed.

Lemma fallbackInventory_found levels (r : InventoryLevel) :
  In r levels -> 0 < quantity r ->
  exists f, fallbackInventory levels = Some f.
Proof.
  intros Hin Hqty. apply (find_passes _ levels r Hin). now apply Z.ltb_lt.
Qed.

Lemma fallbackInventory_none levels :
  (forall r, In r levels -> quantity r <= 0) ->
  fallbackInventory levels = None.
Proof.
  intros Hnone.
  destruct (fallbackInventory levels) as [f|] eqn:Hfind; [|reflexivity].
  apply fallbackInventory_some in Hfind.
  destruct Hfind as (before & after & -> & Hqty & _).
  specialize (Hnone f (in_elt f before after)). lia.
Qed.

Lemma Normal_inj {A : Type} (a b : A) : Normal a = Normal b -> a = b.
Proof. now intros [= ->]. Qed.

(** The two success messages of [checkPincode.js] differ (by one blank). *)
Lemma append_cancel (prefix a b : string) :
  (prefix ++ a)%string = (prefix ++ b)%string -> a = b.
Proof.
  induction prefix as [|ch prefix IH]; simpl; [tauto|].
  intros [= H]. now apply IH.
Qed.

Lemma CheckPincode_fallback_not_fulfilled date (f a : InventoryLevel) :
  CheckPincode.fallback date f <> CheckPincode.fulfilled date a.
Proof.
  unfold CheckPincode.fallback, CheckPincode.fulfilled, CheckPincode.reply.
  intros [= H].
  apply append_cancel in H. discriminate H.
Qed.

Lemma Part000_fallback_not_fulfilled (f a : InventoryLevel) :
  Part000.fallback f <> Part000.fulfilled a.
Proof.
  unfold Part000.fallback, Part000.fulfilled, Part000.reply.
  intros H. discriminate H.
Qed.

End SelectionFacts.

(* ================================================================== *)
(** * The handlers on a served request *)
(* ================================================================== *)

Module FlowFacts.
Section Flow.

Variable getDistance : Coordinates -> Coordinates -> Geolib.distance.
Variable parseFloat : string -> Angle.
Variable world : World.

Lemma truthy_some (s : string) : s <> "" -> JS.truthy (Some s) = true.
Proof. intros Hs. simpl. apply String.eqb_neq in Hs. now rewrite Hs. Qed.

Lemma CheckPincode_served event postalCode productId place product nearest :
  Served world event postalCode productId place product ->
  httpMethod event <> "OPTIONS" ->
  Nearest.findNearestLocation getDistance (located parseFloat place)
    warehouseCoordinates = Some nearest ->
  run (CheckPincode.handler getDistance parseFloat world event)
  = (Normal (CheckPincode.dispatch (estimatedDeliveryDate world)
               (inventoryLevels product) nearest),
     [GET (nominatim_url postalCode); POST SHOPIFY_API_URL productId]).
Proof.
  intros [Hquery Hpc Hpid [others Hplace] [errors Hproduct]] Hmethod Hnearest.
  unfold run, CheckPincode.handler.
  apply String.eqb_neq in Hmethod. rewrite Hmethod, Hquery.
  cbn [Query.pincode Query.productId].
  rewrite (truthy_some _ Hpc), (truthy_some _ Hpid).
  cbn [negb orb JS.toString].
  unfold try_catch, bind, CheckPincode.getCoordinatesFromPincode,
    CheckPincode.axios_get, CheckPincode.axios_post, try_catch, bind, call, ret.
  rewrite Hplace, Hproduct. cbn [Shopify.data app].
  fold (located parseFloat place). rewrite Hnearest. reflexivity.
Qed.

Lemma Part000_served event postalCode productId place product nearest :
  Served world event postalCode productId place product ->
  Nearest.findNearestLocation getDistance (located parseFloat place)
    warehouseCoordinates = Some nearest ->
  run (Part000.handler getDistance parseFloat world event)
  = (Normal (Part000.dispatch (inventoryLevels product) nearest),
     [GET (nominatim_url postalCode); POST SHOPIFY_API_URL productId]).
Proof.
  intros [Hquery Hpc Hpid [others Hplace] [errors Hproduct]] Hnearest.
  unfold run, Part000.handler.
  rewrite Hquery.
  cbn [Query.pincode Query.productId].
  rewrite (truthy_some _ Hpc), (truthy_some _ Hpid).
  cbn [negb orb JS.toString].
  unfold try_catch, bind, Part000.getCoordinatesFromPincode,
    Part000.fetch_json, Part000.fetch_post, Part000.json,
    try_catch, bind, call, ret.
  rewrite Hplace, Hproduct. cbn [Shopify.data app fst snd negb].
  fold (located parseFloat place). rewrite Hnearest. reflexivity.
Qed.

(** The same request when the scan finds no warehouse. *)
Lemma CheckPincode_unlocated event postalCode productId place product :
  Served world event postalCode productId place product ->
  httpMethod event <> "OPTIONS" ->
  Nearest.findNearestLocation getDistance (located parseFloat place)
    warehouseCoordinates = None ->
  run (CheckPincode.handler getDistance parseFloat world event)
  = (Normal CheckPincode.noWarehouse,
     [GET (nominatim_url postalCode); POST SHOPIFY_API_URL productId]).
Proof.
  intros [Hquery Hpc Hpid [others Hplace] [errors Hproduct]] Hmethod Hnearest.
  unfold run, CheckPincode.handler.
  apply String.eqb_neq in Hmethod. rewrite Hmethod, Hquery.
  cbn [Query.pincode Query.productId].
  rewrite (truthy_some _ Hpc), (truthy_some _ Hpid).
  cbn [negb orb JS.toString].
  unfold try_catch, bind, CheckPincode.getCoordinatesFromPincode,
    CheckPincode.axios_get, CheckPincode.axios_post, try_catch, bind, call, ret.
  rewrite Hplace, Hproduct. cbn [Shopify.data app].
  fold (located parseFloat place). rewrite Hnearest. reflexivity.
Qed.

Lemma Part000_unlocated event postalCode productId place product :
  Served world event postalCode productId place product ->
  Nearest.findNearestLocation getDistance (located parseFloat place)
    warehouseCoordinates = None ->
  run (Part000.handler getDistance parseFloat world event)
  = (Normal Part000.noWarehouse,
     [GET (nominatim_url postalCode); POST SHOPIFY_API_URL productId]).
Proof.
  intros [Hquery Hpc Hpid [others Hplace] [errors Hproduct]] Hnearest.
  unfold run, Part000.handler.
  rewrite Hquery.
  cbn [Query.pincode Query.productId].
  rewrite (truthy_some _ Hpc), (truthy_some _ Hpid).
  cbn [negb orb JS.toString].
  unfold try_catch, bind, Part000.getCoordinatesFromPincode,
    Part000.fetch_json, Part000.fetch_post, Part000.json,
    try_catch, bind, call, ret.
  rewrite Hplace, Hproduct. cbn [Shopify.data app fst snd negb].
  fold (located parseFloat place). rewrite Hnearest. reflexivity.
Qed.

End Flow.
End FlowFacts.

(** C3: when the inventory holds a record with positive quantity whose
    location name maps to the identifier of the nearest warehouse, both
    handlers answer Fulfilled, dispatching from a record of that warehouse,
    whatever the other records hold. *)
Theorem nearest_stock_fulfilled
    (getDistance : Coordinates -> Coordinates -> Geolib.distance)
    (parseFloat : string -> Angle)
    (world : World) (event : Event) (postalCode productId : string)
    (place : GeoMatch) (product : Shopify.Product) (nearest : NearestLocation) :
  Served world event postalCode productId place product ->
  Nearest.findNearestLocation getDistance (located parseFloat place)
    warehouseCoordinates = Some nearest ->
  (exists r, In r (inventoryLevels product)
             /\ mapsTo r nearest /\ 0 < quantity r) ->
  exists a,
    In a (inventoryLevels product) /\ mapsTo a nearest /\ 0 < quantity a
    /\ (httpMethod event <> "OPTIONS" ->
        fst (run (CheckPincode.handler getDistance parseFloat world event))
        = Normal (CheckPincode.fulfilled (estimatedDeliveryDate world) a))
    /\ fst (run (Part000.handler getDistance parseFloat world event))
       = Normal (Part000.fulfilled a).
Proof.
  intros Hserved Hnearest (r & Hin & Hmap & Hqty).
  destruct (SelectionFacts.availableInventory_found _ _ r Hin Hmap Hqty)
    as [a Ha].
  destruct (SelectionFacts.availableInventory_some _ _ _ Ha)
    as (Hina & Hmapa & Hqtya).
  exists a. repeat split; try assumption.
  - intros Hmethod.
    rewrite (FlowFacts.CheckPincode_served _ _ _ _ _ _ _ _ _
               Hserved Hmethod Hnearest).
    unfold CheckPincode.dispatch. now rewrite Ha.
  - rewrite (FlowFacts.Part000_served _ _ _ _ _ _ _ _ _ Hserved Hnearest).
    unfold Part000.dispatch. now rewrite Ha.
Qed.

Lemma nearest_stock_fulfilled_witness :
  exists a,
    In a (inventoryLevels Sample.stockedNearby)
    /\ mapsTo a Sample.nearest
    /\ 0 < quantity a
    /\ (httpMethod Sample.order <> "OPTIONS" ->
        fst (run (CheckPincode.handler Sample.taxicab Sample.parseFloat
                    (Sample.world Sample.stockedNearby) Sample.order))
        = Normal (CheckPincode.fulfilled "Saturday, Nov 7" a))
    /\ fst (run (Part000.handler Sample.taxicab Sample.parseFloat
                   (Sample.world Sample.stockedNearby) Sample.order))
       = Normal (Part000.fulfilled a).
Proof.
  apply (nearest_stock_fulfilled Sample.taxicab Sample.parseFloat
           (Sample.world Sample.stockedNearby) Sample.order
           "110001" "gid://shopify/Product/1" Sample.place).
  - Sample.served.
  - reflexivity.
  - exists {| locationName := "Delhi Warehouse"; quantity := 2 |}.
    split; [right; left; reflexivity|]. split; [reflexivity|]. reflexivity.
Defined.

(** C4: when some record has positive quantity and every such record is at a
    location that does not map to the identifier of the nearest warehouse,
    both handlers answer Fallback, dispatching from the first record with
    positive quantity, and the answer is not a Fulfilled one. *)
Theorem remote_stock_fallback
    (getDistance : Coordinates -> Coordinates -> Geolib.distance)
    (parseFloat : string -> Angle)
    (world : World) (event : Event) (postalCode productId : string)
    (place : GeoMatch) (product : Shopify.Product) (nearest : NearestLocation) :
  Served world event postalCode productId place product ->
  Nearest.findNearestLocation getDistance (located parseFloat place)
    warehouseCoordinates = Some nearest ->
  (exists r, In r (inventoryLevels product) /\ 0 < quantity r) ->
  (forall r, In r (inventoryLevels product) -> 0 < quantity r ->
             ~ mapsTo r nearest) ->
  exists before f after,
    inventoryLevels product = before ++ f :: after
    /\ 0 < quantity f
    /\ (forall r, In r before -> quantity r <= 0)
    /\ (httpMethod event <> "OPTIONS" ->
        fst (run (CheckPincode.handler getDistance parseFloat world event))
        = Normal (CheckPincode.fallback (estimatedDeliveryDate world) f)
        /\ forall a,
             fst (run (CheckPincode.handler getDistance parseFloat world event))
             <> Normal (CheckPincode.fulfilled (estimatedDeliveryDate world) a))
    /\ fst (run (Part000.handler getDistance parseFloat world event))
       = Normal (Part000.fallback f)
    /\ forall a,
         fst (run (Part000.handler getDistance parseFloat world event))
         <> Normal (Part000.fulfilled a).
Proof.
  intros Hserved Hnearest (r & Hin & Hqty) Hremote.
  pose proof (SelectionFacts.availableInventory_none _ _ Hremote) as Hnone.
  destruct (SelectionFacts.fallbackInventory_found _ r Hin Hqty) as [f Hf].
  destruct (SelectionFacts.fallbackInventory_some _ _ Hf)
    as (before & after & Hsplit & Hqtyf & Hbefore).
  exists before, f, after.
  assert (Hold : httpMethod event <> "OPTIONS" ->
                 fst (run (CheckPincode.handler getDistance parseFloat
                             world event))
                 = Normal (CheckPincode.fallback
                             (estimatedDeliveryDate world) f)).
  { intros Hmethod.
    rewrite (FlowFacts.CheckPincode_served _ _ _ _ _ _ _ _ _
               Hserved Hmethod Hnearest).
    unfold CheckPincode.dispatch. now rewrite Hnone, Hf. }
  assert (Hnew : fst (run (Part000.handler getDistance parseFloat world event))
                 = Normal (Part000.fallback f)).
  { rewrite (FlowFacts.Part000_served _ _ _ _ _ _ _ _ _ Hserved Hnearest).
    unfold Part000.dispatch. now rewrite Hnone, Hf. }
  repeat split; try assumption.
  - now apply Hold.
  - intros a. rewrite (Hold H). intros Heq.
    apply SelectionFacts.Normal_inj in Heq.
    now apply SelectionFacts.CheckPincode_fallback_not_fulfilled in Heq.
  - intros a. rewrite Hnew. intros Heq.
    apply SelectionFacts.Normal_inj in Heq.
    now apply SelectionFacts.Part000_fallback_not_fulfilled in Heq.
Qed.

Lemma remote_stock_fallback_witness :
  exists before f after,
    inventoryLevels Sample.stockedFarAway = before ++ f :: after
    /\ 0 < quantity f
    /\ (forall r, In r before -> quantity r <= 0)
    /\ (httpMethod Sample.order <> "OPTIONS" ->
        fst (run (CheckPincode.handler Sample.taxicab Sample.parseFloat
                    (Sample.world Sample.stockedFarAway) Sample.order))
        = Normal (CheckPincode.fallback "Saturday, Nov 7" f)
        /\ forall a,
             fst (run (CheckPincode.handler Sample.taxicab Sample.parseFloat
                         (Sample.world Sample.stockedFarAway) Sample.order))
             <> Normal (CheckPincode.fulfilled "Saturday, Nov 7" a))
    /\ fst (run (Part000.handler Sample.taxicab Sample.parseFloat
                   (Sample.world Sample.stockedFarAway) Sample.order))
       = Normal (Part000.fallback f)
    /\ forall a,
         fst (run (Part000.handler Sample.taxicab Sample.parseFloat
                     (Sample.world Sample.stockedFarAway) Sample.order))
         <> Normal (Part000.fulfilled a).
Proof.
  apply (remote_stock_fallback Sample.taxicab Sample.parseFloat
           (Sample.world Sample.stockedFarAway) Sample.order
           "110001" "gid://shopify/Product/1"
           Sample.place Sample.stockedFarAway Sample.nearest).
  - Sample.served.
  - reflexivity.
  - exists {| locationName := "Emiza Blr Warehouse"; quantity := 7 |}.
    split; [right; left; reflexivity | reflexivity].
  - intros r [<- | [<- | []]] Hqty.
    + discriminate Hqty.
    + discriminate.
Defined.

(** C5, as the code has it: when the scan has found a nearest warehouse and
    no record has positive quantity (the empty inventory included), both
    handlers answer OutOfStock: status 200 with a JSON body that has an
    [error] member and no [message] member. *)
Theorem no_stock_outOfStock
    (getDistance : Coordinates -> Coordinates -> Geolib.distance)
    (parseFloat : string -> Angle)
    (world : World) (event : Event) (postalCode productId : string)
    (place : GeoMatch) (product : Shopify.Product) (nearest : NearestLocation) :
  Served world event postalCode productId place product ->
  Nearest.findNearestLocation getDistance (located parseFloat place)
    warehouseCoordinates = Some nearest ->
  (forall r, In r (inventoryLevels product) -> quantity r <= 0) ->
  (httpMethod event <> "OPTIONS" ->
   exists response,
     fst (run (CheckPincode.handler getDistance parseFloat world event))
     = Normal response
     /\ response = CheckPincode.outOfStock
     /\ statusCode response = 200
     /\ field response "error"
        = Some (JS.Str "Product is out of stock at all locations.")
     /\ field response "message" = None)
  /\ exists response,
       fst (run (Part000.handler getDistance parseFloat world event))
       = Normal response
       /\ response = Part000.outOfStock
       /\ statusCode response = 200
       /\ field response "error"
          = Some (JS.Str "Product is out of stock at all locations.")
       /\ field response "message" = None.
Proof.
  intros Hserved Hnearest Hnone.
  assert (Havailable : availableInventory (inventoryLevels product) nearest
                       = None).
  { apply SelectionFacts.availableInventory_none.
    intros r Hin Hqty. specialize (Hnone r Hin). lia. }
  pose proof (SelectionFacts.fallbackInventory_none _ Hnone) as Hfallback.
  split.
  - intros Hmethod. exists CheckPincode.outOfStock.
    rewrite (FlowFacts.CheckPincode_served _ _ _ _ _ _ _ _ _
               Hserved Hmethod Hnearest).
    unfold CheckPincode.dispatch. rewrite Havailable, Hfallback.
    repeat split.
  - exists Part000.outOfStock.
    rewrite (FlowFacts.Part000_served _ _ _ _ _ _ _ _ _ Hserved Hnearest).
    unfold Part000.dispatch. rewrite Havailable, Hfallback.
    repeat split.
Qed.

Lemma no_stock_outOfStock_witness :
  (httpMethod Sample.order <> "OPTIONS" ->
   exists response,
     fst (run (CheckPincode.handler Sample.taxicab Sample.parseFloat
                 (Sample.world Sample.soldOut) Sample.order))
     = Normal response
     /\ response = CheckPincode.outOfStock
     /\ statusCode response = 200
     /\ field response "error"
        = Some (JS.Str "Product is out of stock at all locations.")
     /\ field response "message" = None)
  /\ exists response,
       fst (run (Part000.handler Sample.taxicab Sample.parseFloat
                   (Sample.world Sample.soldOut) Sample.order))
       = Normal response
       /\ response = Part000.outOfStock
       /\ statusCode response = 200
       /\ field response "error"
          = Some (JS.Str "Product is out of stock at all locations.")
       /\ field response "message" = None.
Proof.
  apply (no_stock_outOfStock Sample.taxicab Sample.parseFloat
           (Sample.world Sample.soldOut) Sample.order
           "110001" "gid://shopify/Product/1"
           Sample.place Sample.soldOut Sample.nearest).
  - Sample.served.
  - reflexivity.
  - intros r [<- | [<- | []]]; discriminate.
Defined.

(** C5 fails as stated: with the same sold-out inventory, a first match that
    does not parse leaves the scan without a warehouse, and both handlers
    answer 404 "No warehouse found near the provided pincode." instead of
    the out-of-stock 200. *)
Lemma sold_out_but_no_warehouse :
  Served (Scenario.unlocated Sample.soldOut) Sample.order
    "110001" "gid://shopify/Product/1" Scenario.unparsed Sample.soldOut
  /\ Forall (fun r => quantity r <= 0) (inventoryLevels Sample.soldOut)
  /\ run (CheckPincode.handler Sample.taxicab Sample.parseFloat
            (Scenario.unlocated Sample.soldOut) Sample.order)
     = (Normal CheckPincode.noWarehouse,
        bothCalls "110001" "gid://shopify/Product/1")
  /\ run (Part000.handler Sample.taxicab Sample.parseFloat
            (Scenario.unlocated Sample.soldOut) Sample.order)
     = (Normal Part000.noWarehouse,
        bothCalls "110001" "gid://shopify/Product/1")
  /\ statusCode CheckPincode.noWarehouse = 404
  /\ statusCode Part000.noWarehouse = 404.
Proof.
  split; [Sample.served|].
  split; [repeat constructor; discriminate|].
  repeat split.
Qed.

(* ================================================================== *)
(** * Every way the handlers can end *)
(* ================================================================== *)

Module OutcomeFacts.

(** The handler has returned one of its constant responses. *)
Ltac constant_response :=
  do 2 eexists; split; [reflexivity | left; simpl; tauto].

Section Outcomes.

Variable getDistance : Coordinates -> Coordinates -> Geolib.distance.
Variable parseFloat : string -> Angle.
Variable world : World.

Lemma toString_truthy (v : option string) :
  JS.truthy v = true -> v = Some (JS.toString v).
Proof. destruct v; [reflexivity | discriminate]. Qed.

Lemma CheckPincode_outcomes (event : Event) :
  exists response calls,
    run (CheckPincode.handler getDistance parseFloat world event)
    = (Normal response, calls)
    /\ (In response
          [ CheckPincode.preflight; CheckPincode.missingParameters;
            CheckPincode.invalidPincode; CheckPincode.productNotFound;
            CheckPincode.noWarehouse; CheckPincode.serverError ]
        \/ exists product nearest,
             selected world event product
             /\ response
                = CheckPincode.dispatch (estimatedDeliveryDate world)
                    (inventoryLevels product) nearest).
Proof.
  unfold run, CheckPincode.handler.
  destruct (String.eqb (httpMethod event) "OPTIONS");
    [constant_response|].
  destruct (queryStringParameters event) as [parameters|] eqn:Hquery;
    [|constant_response].
  destruct (JS.truthy (Query.pincode parameters)) eqn:Hpincode;
    [|constant_response].
  destruct (JS.truthy (Query.productId parameters)) eqn:HproductId;
    [|constant_response].
  cbn [negb orb].
  unfold try_catch, bind, CheckPincode.getCoordinatesFromPincode,
    CheckPincode.axios_get, CheckPincode.axios_post, try_catch, bind, call,
    ret, throw.
  destruct (nominatim world _) as [[|place others]|];
    try constant_response.
  destruct (shopify world _) as [|[] [result|]] eqn:Hshopify;
    try constant_response.
  destruct (Shopify.data result) as [[product|]|] eqn:Hdata;
    try constant_response.
  destruct (Nearest.findNearestLocation _ _ _) as [nearest|];
    [|constant_response].
  do 2 eexists. split; [reflexivity|]. right.
  exists product, nearest. split; [|reflexivity].
  exists parameters, (JS.toString (Query.productId parameters)), result.
  repeat split; try assumption.
  now apply toString_truthy.
Qed.

Lemma Part000_outcomes (event : Event) (parameters : Query.Parameters) :
  queryStringParameters event = Some parameters ->
  exists response calls,
    run (Part000.handler getDistance parseFloat world event)
    = (Normal response, calls)
    /\ (In response
          [ Part000.missingParameters; Part000.productNotFound;
            Part000.noWarehouse; Part000.serverError ]
        \/ (exists errors, response = Part000.upstreamError errors)
        \/ exists product nearest,
             selected world event product
             /\ response
                = Part000.dispatch (inventoryLevels product) nearest).
Proof.
  intros Hquery. unfold run, Part000.handler. rewrite Hquery.
  destruct (JS.truthy (Query.pincode parameters)) eqn:Hpincode;
    [|constant_response].
  destruct (JS.truthy (Query.productId parameters)) eqn:HproductId;
    [|constant_response].
  cbn [negb orb].
  unfold try_catch, bind, Part000.getCoordinatesFromPincode,
    Part000.fetch_json, Part000.fetch_post, Part000.json, try_catch, bind,
    call, ret, throw.
  destruct (nominatim world _) as [[|place others]|];
    try constant_response.
  destruct (shopify world _) as [|ok [result|]] eqn:Hshopify;
    try constant_response.
  cbn [fst snd].
  destruct ok; cbn [negb];
    [|do 2 eexists; split; [reflexivity | right; left; eexists; reflexivity]].
  destruct (Shopify.data result) as [[product|]|] eqn:Hdata;
    try constant_response.
  destruct (Nearest.findNearestLocation _ _ _) as [nearest|];
    [|constant_response].
  do 2 eexists. split; [reflexivity|]. right. right.
  exists product, nearest. split; [|reflexivity].
  exists parameters, (JS.toString (Query.productId parameters)), result.
  repeat split; try assumption.
  now apply toString_truthy.
Qed.

End Outcomes.

(** The three ways the selection can end. *)
Lemma CheckPincode_dispatch_cases date levels nearest :
  (exists a, availableInventory levels nearest = Some a
             /\ CheckPincode.dispatch date levels nearest
                = CheckPincode.fulfilled date a)
  \/ (exists f, fallbackInventory levels = Some f
                /\ CheckPincode.dispatch date levels nearest
                   = CheckPincode.fallback date f)
  \/ CheckPincode.dispatch date levels nearest = CheckPincode.outOfStock.
Proof.
  unfold CheckPincode.dispatch.
  destruct (availableInventory levels nearest) as [a|]; [left; eauto|].
  destruct (fallbackInventory levels) as [f|]; [right; left; eauto|].
  now right; right.
Qed.

Lemma Part000_dispatch_cases levels nearest :
  (exists a, availableInventory levels nearest = Some a
             /\ Part000.dispatch levels nearest = Part000.fulfilled a)
  \/ (exists f, fallbackInventory levels = Some f
                /\ Part000.dispatch levels nearest = Part000.fallback f)
  \/ Part000.dispatch levels nearest = Part000.outOfStock.
Proof.
  unfold Part000.dispatch.
  destruct (availableInventory levels nearest) as [a|]; [left; eauto|].
  destruct (fallbackInventory levels) as [f|]; [right; left; eauto|].
  now right; right.
Qed.

End OutcomeFacts.

(** C10: a record chosen by either tier of the selection has positive
    quantity, and whenever a handler answers with a success message
    (Fulfilled or Fallback) the record it reports is a record of the
    extracted inventory with quantity greater than 0; in [part_000], which
    also returns the quantity, the returned number is that quantity. *)
Theorem dispatched_record_in_stock :
  (forall levels nearest r,
     availableInventory levels nearest = Some r
     \/ fallbackInventory levels = Some r ->
     In r levels /\ 0 < quantity r)
  /\ (forall getDistance parseFloat world event response calls,
        run (CheckPincode.handler getDistance parseFloat world event)
        = (Normal response, calls) ->
        field response "message" <> None ->
        exists product r,
          selected world event product
          /\ In r (inventoryLevels product)
          /\ 0 < quantity r
          /\ (response = CheckPincode.fulfilled (estimatedDeliveryDate world) r
              \/ response
                 = CheckPincode.fallback (estimatedDeliveryDate world) r))
  /\ (forall getDistance parseFloat world event response calls,
        run (Part000.handler getDistance parseFloat world event)
        = (Normal response, calls) ->
        field response "message" <> None ->
        exists product r,
          selected world event product
          /\ In r (inventoryLevels product)
          /\ 0 < quantity r
          /\ (response = Part000.fulfilled r \/ response = Part000.fallback r)
          /\ field response "quantity" = Some (JS.Number (quantity r))).
Proof.
  assert (Htiers : forall levels nearest r,
            availableInventory levels nearest = Some r
            \/ fallbackInventory levels = Some r ->
            In r levels /\ 0 < quantity r).
  { intros levels nearest r [Ha | Hf].
    - apply SelectionFacts.availableInventory_some in Ha. tauto.
    - apply SelectionFacts.fallbackInventory_some in Hf.
      destruct Hf as (before & after & -> & Hqty & _).
      split; [apply in_elt | exact Hqty]. }
  split; [exact Htiers|]. split.
  - intros getDistance parseFloat world event response calls Hrun Hmessage.
    destruct (OutcomeFacts.CheckPincode_outcomes getDistance parseFloat
                world event) as (response' & calls' & Hrun' & Hcases).
    rewrite Hrun in Hrun'. injection Hrun' as <- <-.
    destruct Hcases as [Hfixed | (product & nearest & Hselected & ->)].
    + exfalso. apply Hmessage. simpl in Hfixed.
      repeat (destruct Hfixed as [<- | Hfixed]; [reflexivity|]).
      contradiction.
    + exists product.
      destruct (OutcomeFacts.CheckPincode_dispatch_cases
                  (estimatedDeliveryDate world) (inventoryLevels product)
                  nearest)
        as [(a & Ha & ->) | [(f & Hf & ->) | Hout]].
      * exists a. destruct (Htiers _ nearest a (or_introl Ha)). tauto.
      * exists f. destruct (Htiers _ nearest f (or_intror Hf)). tauto.
      * exfalso. apply Hmessage. now rewrite Hout.
  - intros getDistance parseFloat world event response calls Hrun Hmessage.
    destruct (queryStringParameters event) as [parameters|] eqn:Hquery.
    + destruct (OutcomeFacts.Part000_outcomes getDistance parseFloat
                  world event parameters Hquery)
        as (response' & calls' & Hrun' & Hcases).
      rewrite Hrun in Hrun'. injection Hrun' as <- <-.
      destruct Hcases
        as [Hfixed | [(errors & ->) | (product & nearest & Hselected & ->)]].
      * exfalso. apply Hmessage. simpl in Hfixed.
        repeat (destruct Hfixed as [<- | Hfixed]; [reflexivity|]).
        contradiction.
      * exfalso. apply Hmessage. reflexivity.
      * exists product.
        destruct (OutcomeFacts.Part000_dispatch_cases
                    (inventoryLevels product) nearest)
          as [(a & Ha & ->) | [(f & Hf & ->) | Hout]].
        -- exists a. destruct (Htiers _ nearest a (or_introl Ha)).
           repeat split; tauto.
        -- exists f. destruct (Htiers _ nearest f (or_intror Hf)).
           repeat split; tauto.
        -- exfalso. apply Hmessage. now rewrite Hout.
    + unfold run, Part000.handler in Hrun. rewrite Hquery in Hrun.
      discriminate Hrun.
Qed.

Lemma dispatched_record_in_stock_witness :
  (exists product r,
     selected (Sample.world Sample.stockedNearby) Sample.order product
     /\ In r (inventoryLevels product)
     /\ 0 < quantity r
     /\ (CheckPincode.fulfilled "Saturday, Nov 7"
           {| locationName := "Delhi Warehouse"; quantity := 2 |}
         = CheckPincode.fulfilled "Saturday, Nov 7" r
         \/ CheckPincode.fulfilled "Saturday, Nov 7"
              {| locationName := "Delhi Warehouse"; quantity := 2 |}
            = CheckPincode.fallback "Saturday, Nov 7" r))
  /\ (exists product r,
        selected (Sample.world Sample.stockedFarAway) Sample.order product
        /\ In r (inventoryLevels product)
        /\ 0 < quantity r
        /\ (Part000.fallback
              {| locationName := "Emiza Blr Warehouse"; quantity := 7 |}
            = Part000.fulfilled r
            \/ Part000.fallback
                 {| locationName := "Emiza Blr Warehouse"; quantity := 7 |}
               = Part000.fallback r)
        /\ field (Part000.fallback
                    {| locationName := "Emiza Blr Warehouse"; quantity := 7 |})
             "quantity" = Some (JS.Number (quantity r))).
Proof.
  split.
  - apply (proj1 (proj2 dispatched_record_in_stock)
             Sample.taxicab Sample.parseFloat
             (Sample.world Sample.stockedNearby) Sample.order
             (CheckPincode.fulfilled "Saturday, Nov 7"
                {| locationName := "Delhi Warehouse"; quantity := 2 |})
             [ GET (nominatim_url "110001");
               POST SHOPIFY_API_URL "gid://shopify/Product/1" ]).
    + reflexivity.
    + discriminate.
  - apply (proj2 (proj2 dispatched_record_in_stock)
             Sample.taxicab Sample.parseFloat
             (Sample.world Sample.stockedFarAway) Sample.order
             (Part000.fallback
                {| locationName := "Emiza Blr Warehouse"; quantity := 7 |})
             [ GET (nominatim_url "110001");
               POST SHOPIFY_API_URL "gid://shopify/Product/1" ]).
    + reflexivity.
    + discriminate.
Defined.

(** C7, as the code has it: a request that is not a CORS preflight and whose
    query-parameter object lacks the postal code or the product identifier
    (missing or empty, whatever the other one is) is answered 400 by both
    handlers, and no outbound call is issued. *)
Theorem missing_parameter_rejected
    (getDistance : Coordinates -> Coordinates -> Geolib.distance)
    (parseFloat : string -> Angle)
    (world : World) (event : Event) (parameters : Query.Parameters) :
  queryStringParameters event = Some parameters ->
  lacksParameter parameters ->
  (httpMethod event <> "OPTIONS" ->
   run (CheckPincode.handler getDistance parseFloat world event)
   = (Normal CheckPincode.missingParameters, []))
  /\ run (Part000.handler getDistance parseFloat world event)
     = (Normal Part000.missingParameters, [])
  /\ statusCode CheckPincode.missingParameters = 400
  /\ statusCode Part000.missingParameters = 400.
Proof.
  intros Hquery Hlacks.
  assert (Hguard : negb (JS.truthy (Query.pincode parameters))
                   || negb (JS.truthy (Query.productId parameters)) = true).
  { destruct Hlacks as [-> | ->]; [reflexivity | apply orb_true_r]. }
  repeat split.
  - intros Hmethod. apply String.eqb_neq in Hmethod.
    unfold run, CheckPincode.handler.
    now rewrite Hmethod, Hquery, Hguard.
  - unfold run, Part000.handler. now rewrite Hquery, Hguard.
Qed.

Lemma missing_parameter_rejected_witness :
  (httpMethod (Sample.request "GET" (Some "") (Some "gid://shopify/Product/1"))
   <> "OPTIONS" ->
   run (CheckPincode.handler Sample.taxicab Sample.parseFloat
          (Sample.world Sample.stockedNearby)
          (Sample.request "GET" (Some "") (Some "gid://shopify/Product/1")))
   = (Normal CheckPincode.missingParameters, []))
  /\ run (Part000.handler Sample.taxicab Sample.parseFloat
            (Sample.world Sample.stockedNearby)
            (Sample.request "GET" (Some "") (Some "gid://shopify/Product/1")))
     = (Normal Part000.missingParameters, [])
  /\ statusCode CheckPincode.missingParameters = 400
  /\ statusCode Part000.missingParameters = 400.
Proof.
  apply (missing_parameter_rejected Sample.taxicab Sample.parseFloat
           (Sample.world Sample.stockedNearby)
           (Sample.request "GET" (Some "") (Some "gid://shopify/Product/1"))
           {| Query.pincode := Some "";
              Query.productId := Some "gid://shopify/Product/1" |}).
  - reflexivity.
  - left. reflexivity.
Defined.

(** C7 fails as stated: a preflight request without a postal code is
    answered 204 by [checkPincode.js], not 400. *)
Lemma preflight_without_pincode :
  let event := Sample.request "OPTIONS" None (Some "gid://shopify/Product/1") in
  lacksParameter {| Query.pincode := None;
                    Query.productId := Some "gid://shopify/Product/1" |}
  /\ run (CheckPincode.handler Sample.taxicab Sample.parseFloat
            (Sample.world Sample.stockedNearby) event)
     = (Normal CheckPincode.preflight, [])
  /\ statusCode CheckPincode.preflight = 204
  /\ statusCode CheckPincode.preflight <> 400.
Proof.
  cbv zeta. split; [left; reflexivity|].
  split; [reflexivity|]. split; [reflexivity | discriminate].
Qed.

(** [checkPincode.js] also answers 400 when the event has no
    query-parameter object at all. *)
Lemma CheckPincode_no_query getDistance parseFloat world event :
  httpMethod event <> "OPTIONS" ->
  queryStringParameters event = None ->
  run (CheckPincode.handler getDistance parseFloat world event)
  = (Normal CheckPincode.missingParameters, []).
Proof.
  intros Hmethod Hquery. apply String.eqb_neq in Hmethod.
  unfold run, CheckPincode.handler. now rewrite Hmethod, Hquery.
Qed.

(** [checkPincode.js] always answers with one of the five status codes. *)
Lemma CheckPincode_handler_responds getDistance parseFloat world event :
  exists response calls,
    run (CheckPincode.handler getDistance parseFloat world event)
    = (Normal response, calls)
    /\ In (statusCode response) statusCodes.
Proof.
  destruct (OutcomeFacts.CheckPincode_outcomes getDistance parseFloat
              world event) as (response & calls & Hrun & Hcases).
  exists response, calls. split; [exact Hrun|].
  destruct Hcases as [Hfixed | (product & nearest & _ & ->)].
  - simpl in Hfixed.
    repeat (destruct Hfixed as [<- | Hfixed]; [simpl; tauto|]).
    contradiction.
  - destruct (OutcomeFacts.CheckPincode_dispatch_cases
                (estimatedDeliveryDate world) (inventoryLevels product) nearest)
      as [(a & _ & ->) | [(f & _ & ->) | ->]]; simpl; tauto.
Qed.

(** So does [part_000] once the event carries a query-parameter object. *)
Lemma Part000_handler_responds getDistance parseFloat world event parameters :
  queryStringParameters event = Some parameters ->
  exists response calls,
    run (Part000.handler getDistance parseFloat world event)
    = (Normal response, calls)
    /\ In (statusCode response) statusCodes.
Proof.
  intros Hquery.
  destruct (OutcomeFacts.Part000_outcomes getDistance parseFloat
              world event parameters Hquery)
    as (response & calls & Hrun & Hcases).
  exists response, calls. split; [exact Hrun|].
  destruct Hcases
    as [Hfixed | [(errors & ->) | (product & nearest & _ & ->)]].
  - simpl in Hfixed.
    repeat (destruct Hfixed as [<- | Hfixed]; [simpl; tauto|]).
    contradiction.
  - simpl; tauto.
  - destruct (OutcomeFacts.Part000_dispatch_cases
                (inventoryLevels product) nearest)
      as [(a & _ & ->) | [(f & _ & ->) | ->]]; simpl; tauto.
Qed.

(** C8 at the failing input: on an event without a query-parameter object
    the handler of [part_000] ends by throwing a [TypeError] to its caller
    instead of returning a response (the destructuring precedes the [try]). *)
Theorem Part000_handler_throws
    (getDistance : Coordinates -> Coordinates -> Geolib.distance)
    (parseFloat : string -> Angle)
    (world : World) (method : string) :
  run (Part000.handler getDistance parseFloat world
         {| httpMethod := method; queryStringParameters := None |})
  = (Throw TypeError, []).
Proof. reflexivity. Qed.

(* ================================================================== *)
(** * The geocoding helper *)
(* ================================================================== *)

(** X1: in [checkPincode.js] the helper never throws: it issues exactly one GET
    on the Nominatim URL of the postal code and answers the coordinates of
    the first match, or [null] when the request fails or nothing matches. *)
Theorem CheckPincode_getCoordinates_swallows
    (parseFloat : string -> Angle) (world : World) (postalCode : string)
    (log : list Call) :
  exists result,
    CheckPincode.getCoordinatesFromPincode parseFloat world postalCode log
    = (Normal result, log ++ [GET (nominatim_url postalCode)])
    /\ (forall place others,
          nominatim world (nominatim_url postalCode) = Some (place :: others) ->
          result = Some (located parseFloat place))
    /\ (Unresolved world postalCode -> result = None).
Proof.
  unfold CheckPincode.getCoordinatesFromPincode, CheckPincode.axios_get,
    try_catch, bind, call, ret, throw, Unresolved.
  destruct (nominatim world (nominatim_url postalCode))
    as [[|first rest]|]; eexists; (split; [reflexivity|]); split.
  - discriminate.
  - reflexivity.
  - now intros place others [= <- <-].
  - intros [H | H]; discriminate H.
  - discriminate.
  - reflexivity.
Qed.

(** X2: in [part_000] the helper issues the same single GET but rethrows: a
    failed request and an empty array of matches both end in an exception,
    the latter with the message "No coordinates found for the given
    pincode.". *)
Theorem Part000_getCoordinates_rethrows
    (parseFloat : string -> Angle) (world : World) (postalCode : string)
    (log : list Call) :
  snd (Part000.getCoordinatesFromPincode parseFloat world postalCode log)
  = log ++ [GET (nominatim_url postalCode)]
  /\ (forall place others,
        nominatim world (nominatim_url postalCode) = Some (place :: others) ->
        fst (Part000.getCoordinatesFromPincode parseFloat world postalCode log)
        = Normal (located parseFloat place))
  /\ (nominatim world (nominatim_url postalCode) = Some [] ->
      fst (Part000.getCoordinatesFromPincode parseFloat world postalCode log)
      = Throw (ErrorOf "No coordinates found for the given pincode."))
  /\ (nominatim world (nominatim_url postalCode) = None ->
      fst (Part000.getCoordinatesFromPincode parseFloat world postalCode log)
      = Throw RequestFailed).
Proof.
  unfold Part000.getCoordinatesFromPincode, Part000.fetch_json,
    try_catch, bind, call, ret, throw.
  destruct (nominatim world (nominatim_url postalCode))
    as [[|first rest]|]; simpl; repeat split; try discriminate; try reflexivity.
  now intros place others [= <- <-].
Qed.

(* ================================================================== *)
(** * How a request ends, stage by stage *)
(* ================================================================== *)

Module StageFacts.

(** Unfold both handlers down to the answers of the world. *)
Ltac expose :=
  unfold run, CheckPincode.handler, Part000.handler,
    CheckPincode.getCoordinatesFromPincode, CheckPincode.axios_get,
    CheckPincode.axios_post, Part000.getCoordinatesFromPincode,
    Part000.fetch_json, Part000.fetch_post, Part000.json,
    try_catch, bind, call, ret, throw.

(** Rewrite with what is known of the request. *)
Ltac asked Hasks :=
  let Hquery := fresh "Hquery" in
  let Hpc := fresh "Hpc" in
  let Hpid := fresh "Hpid" in
  destruct Hasks as (Hquery & Hpc & Hpid);
  rewrite Hquery; cbn [Query.pincode Query.productId];
  rewrite (FlowFacts.truthy_some _ Hpc), (FlowFacts.truthy_some _ Hpid);
  cbn [negb orb JS.toString].

Lemma not_preflight (event : Event) :
  httpMethod event <> "OPTIONS" ->
  String.eqb (httpMethod event) "OPTIONS" = false.
Proof. apply String.eqb_neq. Qed.

End StageFacts.

(** X3: [checkPincode.js]: when the postal code cannot be resolved the answer is
    404 "Invalid pincode. No coordinates found." and Shopify is never
    called. *)
Theorem CheckPincode_unresolved_pincode
    (getDistance : Coordinates -> Coordinates -> Geolib.distance)
    (parseFloat : string -> Angle)
    (world : World) (event : Event) (postalCode productId : string) :
  httpMethod event <> "OPTIONS" ->
  Asks event postalCode productId ->
  Unresolved world postalCode ->
  run (CheckPincode.handler getDistance parseFloat world event)
  = (Normal CheckPincode.invalidPincode, [GET (nominatim_url postalCode)])
  /\ statusCode CheckPincode.invalidPincode = 404.
Proof.
  intros Hmethod Hasks Hnone. split; [|reflexivity].
  StageFacts.expose. rewrite (StageFacts.not_preflight _ Hmethod).
  StageFacts.asked Hasks.
  destruct Hnone as [-> | ->]; reflexivity.
Qed.

Lemma CheckPincode_unresolved_pincode_witness :
  run (CheckPincode.handler Sample.taxicab Sample.parseFloat
         (Scenario.world (Some []) Shopify.Unreachable) Sample.order)
  = (Normal CheckPincode.invalidPincode, [GET (nominatim_url "110001")])
  /\ statusCode CheckPincode.invalidPincode = 404.
Proof.
  apply (CheckPincode_unresolved_pincode Sample.taxicab Sample.parseFloat
           (Scenario.world (Some []) Shopify.Unreachable) Sample.order
           "110001" "gid://shopify/Product/1").
  - discriminate.
  - split; [reflexivity | split; discriminate].
  - right. reflexivity.
Defined.

(** X4: [part_000]: the same request ends in the blanket 500 "Server error",
    again without any call to Shopify. *)
Theorem Part000_unresolved_pincode
    (getDistance : Coordinates -> Coordinates -> Geolib.distance)
    (parseFloat : string -> Angle)
    (world : World) (event : Event) (postalCode productId : string) :
  Asks event postalCode productId ->
  Unresolved world postalCode ->
  run (Part000.handler getDistance parseFloat world event)
  = (Normal Part000.serverError, [GET (nominatim_url postalCode)])
  /\ statusCode Part000.serverError = 500.
Proof.
  intros Hasks Hnone. split; [|reflexivity].
  StageFacts.expose. StageFacts.asked Hasks.
  destruct Hnone as [-> | ->]; reflexivity.
Qed.

Lemma Part000_unresolved_pincode_witness :
  run (Part000.handler Sample.taxicab Sample.parseFloat
         (Scenario.world None Shopify.Unreachable) Sample.order)
  = (Normal Part000.serverError, [GET (nominatim_url "110001")])
  /\ statusCode Part000.serverError = 500.
Proof.
  apply (Part000_unresolved_pincode Sample.taxicab Sample.parseFloat
           (Scenario.world None Shopify.Unreachable) Sample.order
           "110001" "gid://shopify/Product/1").
  - split; [reflexivity | split; discriminate].
  - left. reflexivity.
Defined.

(** X5: [checkPincode.js]: once the postal code is resolved, a Shopify call that
    fails, is answered outside 2xx, or is answered 2xx by a body without a
    [data] member ends in the blanket 500 "Server error"; both calls have
    been issued and nothing of the upstream answer is relayed. *)
Theorem CheckPincode_upstream_failure
    (getDistance : Coordinates -> Coordinates -> Geolib.distance)
    (parseFloat : string -> Angle)
    (world : World) (event : Event) (postalCode productId : string)
    (place : GeoMatch) (others : list GeoMatch) :
  httpMethod event <> "OPTIONS" ->
  Asks event postalCode productId ->
  nominatim world (nominatim_url postalCode) = Some (place :: others) ->
  shopify world productId = Shopify.Unreachable
  \/ (exists body, shopify world productId = Shopify.Answer false body)
  \/ (exists result,
        shopify world productId = Shopify.Answer true (Some result)
        /\ Shopify.data result = None) ->
  run (CheckPincode.handler getDistance parseFloat world event)
  = (Normal CheckPincode.serverError, bothCalls postalCode productId)
  /\ statusCode CheckPincode.serverError = 500.
Proof.
  intros Hmethod Hasks Hplace Hfails. split; [|reflexivity].
  StageFacts.expose. rewrite (StageFacts.not_preflight _ Hmethod).
  StageFacts.asked Hasks. rewrite Hplace.
  destruct Hfails as [-> | [[body ->] | (result & -> & Hdata)]];
    [reflexivity | reflexivity |].
  now rewrite Hdata.
Qed.

Lemma CheckPincode_upstream_failure_witness :
  run (CheckPincode.handler Sample.taxicab Sample.parseFloat
         (Scenario.world Scenario.found
            (Shopify.Answer true
               (Some (Scenario.result None (Some ["Throttled"])))))
         Sample.order)
  = (Normal CheckPincode.serverError,
     bothCalls "110001" "gid://shopify/Product/1")
  /\ statusCode CheckPincode.serverError = 500.
Proof.
  apply (CheckPincode_upstream_failure Sample.taxicab Sample.parseFloat
           (Scenario.world Scenario.found
              (Shopify.Answer true
                 (Some (Scenario.result None (Some ["Throttled"])))))
           Sample.order "110001" "gid://shopify/Product/1" Sample.place []).
  - discriminate.
  - split; [reflexivity | split; discriminate].
  - reflexivity.
  - right. right. eexists. split; reflexivity.
Defined.

(** X6: [part_000]: once the postal code is resolved, an answer outside 2xx with
    a parsed body is relayed as 500 with the upstream [errors] (or "Error
    fetching product data" when the body has none); an unreachable Shopify,
    an empty body, or a 2xx body without a [data] member end in the blanket
    500 "Server error". *)
Theorem Part000_upstream_failure
    (getDistance : Coordinates -> Coordinates -> Geolib.distance)
    (parseFloat : string -> Angle)
    (world : World) (event : Event) (postalCode productId : string)
    (place : GeoMatch) (others : list GeoMatch) :
  Asks event postalCode productId ->
  nominatim world (nominatim_url postalCode) = Some (place :: others) ->
  (forall result,
     shopify world productId = Shopify.Answer false (Some result) ->
     run (Part000.handler getDistance parseFloat world event)
     = (Normal (Part000.upstreamError (Shopify.errors result)),
        bothCalls postalCode productId)
     /\ statusCode (Part000.upstreamError (Shopify.errors result)) = 500
     /\ field (Part000.upstreamError (Shopify.errors result)) "error"
        = Some match Shopify.errors result with
               | Some messages => JS.Errors messages
               | None => JS.Str "Error fetching product data"
               end)
  /\ (shopify world productId = Shopify.Unreachable
      \/ (exists ok, shopify world productId = Shopify.Answer ok None)
      \/ (exists result,
            shopify world productId = Shopify.Answer true (Some result)
            /\ Shopify.data result = None) ->
      run (Part000.handler getDistance parseFloat world event)
      = (Normal Part000.serverError, bothCalls postalCode productId)).
Proof.
  intros Hasks Hplace. split.
  - intros result Hreply. split; [|split; reflexivity].
    StageFacts.expose. StageFacts.asked Hasks.
    now rewrite Hplace, Hreply.
  - intros Hfails.
    StageFacts.expose. StageFacts.asked Hasks. rewrite Hplace.
    destruct Hfails as [-> | [[ok ->] | (result & -> & Hdata)]];
      [reflexivity | reflexivity |].
    cbn [fst snd negb]. now rewrite Hdata.
Qed.

Lemma Part000_upstream_failure_witness :
  run (Part000.handler Sample.taxicab Sample.parseFloat
         (Scenario.world Scenario.found
            (Shopify.Answer false
               (Some (Scenario.result None (Some ["Throttled"])))))
         Sample.order)
  = (Normal (Part000.upstreamError (Some ["Throttled"])),
     bothCalls "110001" "gid://shopify/Product/1")
  /\ field (Part000.upstreamError (Some ["Throttled"])) "error"
     = Some (JS.Errors ["Throttled"]).
Proof.
  destruct (Part000_upstream_failure Sample.taxicab Sample.parseFloat
              (Scenario.world Scenario.found
                 (Shopify.Answer false
                    (Some (Scenario.result None (Some ["Throttled"])))))
              Sample.order "110001" "gid://shopify/Product/1" Sample.place [])
    as [Hrelayed _].
  - split; [reflexivity | split; discriminate].
  - reflexivity.
  - destruct (Hrelayed (Scenario.result None (Some ["Throttled"])) eq_refl)
      as (Hrun & _ & Herror).
    split; [exact Hrun | exact Herror].
Defined.

(** X7: when Shopify answers 2xx with [product: null] both handlers answer 404
    after both calls.  On a 2xx answer with an empty body they part:
    [checkPincode.js] answers 404 as well. *)
Theorem product_not_found
    (getDistance : Coordinates -> Coordinates -> Geolib.distance)
    (parseFloat : string -> Angle)
    (world : World) (event : Event) (postalCode productId : string)
    (place : GeoMatch) (others : list GeoMatch) :
  Asks event postalCode productId ->
  nominatim world (nominatim_url postalCode) = Some (place :: others) ->
  (forall result,
     shopify world productId = Shopify.Answer true (Some result) ->
     Shopify.data result = Some None ->
     (httpMethod event <> "OPTIONS" ->
      run (CheckPincode.handler getDistance parseFloat world event)
      = (Normal CheckPincode.productNotFound, bothCalls postalCode productId))
     /\ run (Part000.handler getDistance parseFloat world event)
        = (Normal Part000.productNotFound, bothCalls postalCode productId))
  /\ (shopify world productId = Shopify.Answer true None ->
      httpMethod event <> "OPTIONS" ->
      run (CheckPincode.handler getDistance parseFloat world event)
      = (Normal CheckPincode.productNotFound, bothCalls postalCode productId))
  /\ statusCode CheckPincode.productNotFound = 404
  /\ statusCode Part000.productNotFound = 404.
Proof.
  intros Hasks Hplace. split; [|split; [|split; reflexivity]].
  - intros result Hreply Hdata. split.
    + intros Hmethod.
      StageFacts.expose. rewrite (StageFacts.not_preflight _ Hmethod).
      StageFacts.asked Hasks. now rewrite Hplace, Hreply, Hdata.
    + StageFacts.expose. StageFacts.asked Hasks.
      rewrite Hplace, Hreply. cbn [fst snd negb]. now rewrite Hdata.
  - intros Hreply Hmethod.
    StageFacts.expose. rewrite (StageFacts.not_preflight _ Hmethod).
    StageFacts.asked Hasks. now rewrite Hplace, Hreply.
Qed.

Lemma product_not_found_witness :
  (httpMethod Sample.order <> "OPTIONS" ->
   run (CheckPincode.handler Sample.taxicab Sample.parseFloat
          (Scenario.world Scenario.found
             (Shopify.Answer true (Some (Scenario.result (Some None) None))))
          Sample.order)
   = (Normal CheckPincode.productNotFound,
      bothCalls "110001" "gid://shopify/Product/1"))
  /\ run (Part000.handler Sample.taxicab Sample.parseFloat
            (Scenario.world Scenario.found
               (Shopify.Answer true (Some (Scenario.result (Some None) None))))
            Sample.order)
     = (Normal Part000.productNotFound,
        bothCalls "110001" "gid://shopify/Product/1").
Proof.
  destruct (product_not_found Sample.taxicab Sample.parseFloat
              (Scenario.world Scenario.found
                 (Shopify.Answer true
                    (Some (Scenario.result (Some None) None))))
              Sample.order "110001" "gid://shopify/Product/1" Sample.place [])
    as [Hnull _].
  - split; [reflexivity | split; discriminate].
  - reflexivity.
  - exact (Hnull (Scenario.result (Some None) None) eq_refl eq_refl).
Defined.

(* ================================================================== *)
(** * Every run, with its calls *)
(* ================================================================== *)

Module EndFacts.

Lemma asks_of_truthy (event : Event) (parameters : Query.Parameters) :
  queryStringParameters event = Some parameters ->
  JS.truthy (Query.pincode parameters) = true ->
  JS.truthy (Query.productId parameters) = true ->
  Asks event (JS.toString (Query.pincode parameters))
             (JS.toString (Query.productId parameters)).
Proof.
  intros Hquery Hpc Hpid.
  destruct parameters as [[pc|] [pid|]]; try discriminate. simpl in *.
  repeat split.
  - exact Hquery.
  - intros ->. discriminate Hpc.
  - intros ->. discriminate Hpid.
Qed.

Lemma lacks_of_falsy (parameters : Query.Parameters) :
  negb (JS.truthy (Query.pincode parameters))
  || negb (JS.truthy (Query.productId parameters)) = true <->
  lacksParameter parameters.
Proof.
  unfold lacksParameter.
  destruct (JS.truthy (Query.pincode parameters)),
           (JS.truthy (Query.productId parameters)); simpl; intuition congruence.
Qed.

Lemma asks_selected (world : World) (event : Event)
    (postalCode productId : string) (result : Shopify.Result)
    (product : Shopify.Product) :
  Asks event postalCode productId ->
  shopify world productId = Shopify.Answer true (Some result) ->
  Shopify.data result = Some (Some product) ->
  selected world event product.
Proof.
  intros (Hquery & _ & _) Hreply Hdata.
  eexists _, productId, result. repeat split; eauto.
Qed.

Section Ends.

Variable getDistance : Coordinates -> Coordinates -> Geolib.distance.
Variable parseFloat : string -> Angle.
Variable world : World.

Lemma CheckPincode_ends (event : Event) :
  (httpMethod event = "OPTIONS"
   /\ run (CheckPincode.handler getDistance parseFloat world event)
      = (Normal CheckPincode.preflight, []))
  \/ (httpMethod event <> "OPTIONS"
      /\ lacksParameter (parametersOf event)
      /\ run (CheckPincode.handler getDistance parseFloat world event)
         = (Normal CheckPincode.missingParameters, []))
  \/ (httpMethod event <> "OPTIONS"
      /\ ~ lacksParameter (parametersOf event)
      /\ exists postalCode productId,
           Asks event postalCode productId
           /\ ((Unresolved world postalCode
                /\ run (CheckPincode.handler getDistance parseFloat world event)
                   = (Normal CheckPincode.invalidPincode,
                      [GET (nominatim_url postalCode)]))
               \/ exists place others response,
                    nominatim world (nominatim_url postalCode)
                    = Some (place :: others)
                    /\ run (CheckPincode.handler getDistance parseFloat
                              world event)
                       = (Normal response, bothCalls postalCode productId)
                    /\ (response = CheckPincode.serverError
                        \/ response = CheckPincode.productNotFound
                        \/ response = CheckPincode.noWarehouse
                        \/ exists product nearest,
                             selected world event product
                             /\ Nearest.findNearestLocation getDistance
                                  (located parseFloat place)
                                  warehouseCoordinates = Some nearest
                             /\ response
                                = CheckPincode.dispatch
                                    (estimatedDeliveryDate world)
                                    (inventoryLevels product) nearest))).
Proof.
  destruct (String.eqb_spec (httpMethod event) "OPTIONS") as [Hmethod | Hmethod].
  { left. split; [exact Hmethod|].
    unfold run, CheckPincode.handler. now rewrite Hmethod. }
  right.
  destruct (negb (JS.truthy (Query.pincode (parametersOf event)))
            || negb (JS.truthy (Query.productId (parametersOf event)))) eqn:Hguard.
  { left. split; [exact Hmethod|]. split; [now apply lacks_of_falsy|].
    unfold run, CheckPincode.handler.
    rewrite (StageFacts.not_preflight _ Hmethod).
    fold (parametersOf event). now rewrite Hguard. }
  right. split; [exact Hmethod|].
  split; [intros Hlacks; apply lacks_of_falsy in Hlacks; congruence|].
  apply orb_false_elim in Hguard. destruct Hguard as [Hpc Hpid].
  apply negb_false_iff in Hpc, Hpid.
  unfold parametersOf in Hpc, Hpid.
  destruct (queryStringParameters event) as [parameters|] eqn:Hquery;
    [|discriminate Hpc].
  pose proof (asks_of_truthy event parameters Hquery Hpc Hpid) as Hasks.
  exists (JS.toString (Query.pincode parameters)),
         (JS.toString (Query.productId parameters)).
  split; [exact Hasks|].
  StageFacts.expose. rewrite (StageFacts.not_preflight _ Hmethod), Hquery.
  rewrite Hpc, Hpid. cbn [negb orb]. unfold Unresolved.
  destruct (nominatim world _) as [[|place others]|] eqn:Hplace;
    [left; split; [now right | reflexivity] | | left; split; [now left | reflexivity]].
  right. exists place, others.
  destruct (shopify world _) as [|[] [result|]] eqn:Hreply;
    try (eexists; split; [reflexivity|]; split; [reflexivity|]; tauto).
  destruct (Shopify.data result) as [[product|]|] eqn:Hdata;
    try (eexists; split; [reflexivity|]; split; [reflexivity|]; tauto).
  fold (located parseFloat place).
  destruct (Nearest.findNearestLocation getDistance
              (located parseFloat place) warehouseCoordinates)
    as [nearest|] eqn:Hnearest;
    [|eexists; split; [reflexivity|]; split; [reflexivity|]; tauto].
  eexists. split; [reflexivity|]. split; [reflexivity|].
  right. right. right. exists product, nearest.
  split; [|split; reflexivity].
  exact (asks_selected _ _ _ _ _ _ Hasks Hreply Hdata).
Qed.

Lemma Part000_ends (event : Event) :
  (queryStringParameters event = None
   /\ run (Part000.handler getDistance parseFloat world event)
      = (Throw TypeError, []))
  \/ (exists parameters,
        queryStringParameters event = Some parameters
        /\ lacksParameter parameters
        /\ run (Part000.handler getDistance parseFloat world event)
           = (Normal Part000.missingParameters, []))
  \/ (exists parameters,
        queryStringParameters event = Some parameters
        /\ ~ lacksParameter parameters)
     /\ exists postalCode productId,
          Asks event postalCode productId
          /\ ((Unresolved world postalCode
               /\ run (Part000.handler getDistance parseFloat world event)
                  = (Normal Part000.serverError,
                     [GET (nominatim_url postalCode)]))
              \/ exists place others response,
                   nominatim world (nominatim_url postalCode)
                   = Some (place :: others)
                   /\ run (Part000.handler getDistance parseFloat world event)
                      = (Normal response, bothCalls postalCode productId)
                   /\ (response = Part000.serverError
                       \/ (exists errors,
                             response = Part000.upstreamError errors)
                       \/ response = Part000.productNotFound
                       \/ response = Part000.noWarehouse
                       \/ exists product nearest,
                            selected world event product
                            /\ Nearest.findNearestLocation getDistance
                                 (located parseFloat place)
                                 warehouseCoordinates = Some nearest
                            /\ response
                               = Part000.dispatch
                                   (inventoryLevels product) nearest)).
Proof.
  destruct (queryStringParameters event) as [parameters|] eqn:Hquery;
    [|left; split; [reflexivity|];
      unfold run, Part000.handler; now rewrite Hquery].
  right.
  destruct (negb (JS.truthy (Query.pincode parameters))
            || negb (JS.truthy (Query.productId parameters))) eqn:Hguard.
  { left. exists parameters. split; [reflexivity|].
    split; [now apply lacks_of_falsy|].
    unfold run, Part000.handler. now rewrite Hquery, Hguard. }
  right. split.
  { exists parameters. split; [reflexivity|].
    intros Hlacks; apply lacks_of_falsy in Hlacks; congruence. }
  apply orb_false_elim in Hguard. destruct Hguard as [Hpc Hpid].
  apply negb_false_iff in Hpc, Hpid.
  pose proof (asks_of_truthy event parameters Hquery Hpc Hpid) as Hasks.
  exists (JS.toString (Query.pincode parameters)),
         (JS.toString (Query.productId parameters)).
  split; [exact Hasks|].
  StageFacts.expose. rewrite Hquery, Hpc, Hpid. cbn [negb orb].
  unfold Unresolved.
  destruct (nominatim world _) as [[|place others]|] eqn:Hplace;
    [left; split; [now right | reflexivity] | | left; split; [now left | reflexivity]].
  right. exists place, others.
  destruct (shopify world _) as [|ok [result|]] eqn:Hreply;
    try (eexists; split; [reflexivity|]; split; [reflexivity|]; tauto).
  cbn [fst snd].
  destruct ok; cbn [negb];
    [|eexists; split; [reflexivity|]; split; [reflexivity|];
      right; left; eexists; reflexivity].
  destruct (Shopify.data result) as [[product|]|] eqn:Hdata;
    try (eexists; split; [reflexivity|]; split; [reflexivity|]; tauto).
  fold (located parseFloat place).
  destruct (Nearest.findNearestLocation getDistance
              (located parseFloat place) warehouseCoordinates)
    as [nearest|] eqn:Hnearest;
    [|eexists; split; [reflexivity|]; split; [reflexivity|]; tauto].
  eexists. split; [reflexivity|]. split; [reflexivity|].
  right. right. right. right. exists product, nearest.
  split; [|split; reflexivity].
  exact (asks_selected _ _ _ _ _ _ Hasks Hreply Hdata).
Qed.

End Ends.
End EndFacts.

(** X8: both handlers issue their calls in order: none at all, or the Nominatim
    GET alone when the postal code is not resolved, or that GET followed by
    the Shopify POST when it is.  Shopify is never called first, and no call
    is repeated. *)
Theorem calls_in_order
    (getDistance : Coordinates -> Coordinates -> Geolib.distance)
    (parseFloat : string -> Angle)
    (world : World) (event : Event) :
  inOrder world event
    (snd (run (CheckPincode.handler getDistance parseFloat world event)))
  /\ inOrder world event
       (snd (run (Part000.handler getDistance parseFloat world event))).
Proof.
  split.
  - destruct (EndFacts.CheckPincode_ends getDistance parseFloat world event)
      as [(_ & ->) | [(_ & _ & ->) | (_ & _ & pc & pid & Hasks & Hstage)]];
      [now left | now left |].
    right. exists pc, pid. split; [exact Hasks|].
    destruct Hstage
      as [(Hnone & ->) | (place & others & response & Hplace & -> & _)].
    + left. now split.
    + right. split; [now exists place, others | reflexivity].
  - destruct (EndFacts.Part000_ends getDistance parseFloat world event)
      as [(_ & ->) | [(q & _ & _ & ->) | (_ & pc & pid & Hasks & Hstage)]];
      [now left | now left |].
    right. exists pc, pid. split; [exact Hasks|].
    destruct Hstage
      as [(Hnone & ->) | (place & others & response & Hplace & -> & _)].
    + left. now split.
    + right. split; [now exists place, others | reflexivity].
Qed.

(** X9: every response of [checkPincode.js], the error ones included, carries
    the header [Access-Control-Allow-Origin: *]. *)
Theorem CheckPincode_allows_any_origin
    (getDistance : Coordinates -> Coordinates -> Geolib.distance)
    (parseFloat : string -> Angle)
    (world : World) (event : Event) :
  exists response calls,
    run (CheckPincode.handler getDistance parseFloat world event)
    = (Normal response, calls)
    /\ allowsAnyOrigin response.
Proof.
  destruct (OutcomeFacts.CheckPincode_outcomes getDistance parseFloat
              world event) as (response & calls & Hrun & Hcases).
  exists response, calls. split; [exact Hrun|].
  destruct Hcases as [Hfixed | (product & nearest & _ & ->)].
  - simpl in Hfixed.
    repeat (destruct Hfixed as [<- | Hfixed]; [reflexivity|]).
    contradiction.
  - destruct (OutcomeFacts.CheckPincode_dispatch_cases
                (estimatedDeliveryDate world) (inventoryLevels product) nearest)
      as [(a & _ & ->) | [(f & _ & ->) | ->]]; reflexivity.
Qed.

(** X10: on a served request the 404 "No warehouse found near the provided
    pincode." is answered exactly when the scan of the registry returns
    [null], as it does when the first match of the geocoder does not parse:
    both calls have been issued by then and the inventory is not looked at. *)
Theorem no_warehouse_iff_scan_null
    (getDistance : Coordinates -> Coordinates -> Geolib.distance)
    (parseFloat : string -> Angle)
    (world : World) (event : Event) (postalCode productId : string)
    (place : GeoMatch) (product : Shopify.Product) :
  Served world event postalCode productId place product ->
  (Nearest.findNearestLocation getDistance (located parseFloat place)
     warehouseCoordinates = None ->
   (httpMethod event <> "OPTIONS" ->
    run (CheckPincode.handler getDistance parseFloat world event)
    = (Normal CheckPincode.noWarehouse, bothCalls postalCode productId))
   /\ run (Part000.handler getDistance parseFloat world event)
      = (Normal Part000.noWarehouse, bothCalls postalCode productId))
  /\ (forall nearest,
        Nearest.findNearestLocation getDistance (located parseFloat place)
          warehouseCoordinates = Some nearest ->
        fst (run (CheckPincode.handler getDistance parseFloat world event))
        <> Normal CheckPincode.noWarehouse
        /\ fst (run (Part000.handler getDistance parseFloat world event))
           <> Normal Part000.noWarehouse)
  /\ statusCode CheckPincode.noWarehouse = 404
  /\ statusCode Part000.noWarehouse = 404.
Proof.
  intros Hserved. split; [|split; [|split; reflexivity]].
  - intros Hnull. split.
    + intros Hmethod.
      exact (FlowFacts.CheckPincode_unlocated _ _ _ _ _ _ _ _
               Hserved Hmethod Hnull).
    + exact (FlowFacts.Part000_unlocated _ _ _ _ _ _ _ _ Hserved Hnull).
  - intros nearest Hnearest. split.
    + destruct (String.eqb_spec (httpMethod event) "OPTIONS")
        as [Hmethod | Hmethod].
      * unfold run, CheckPincode.handler. rewrite Hmethod. discriminate.
      * rewrite (FlowFacts.CheckPincode_served _ _ _ _ _ _ _ _ _
                   Hserved Hmethod Hnearest).
        destruct (OutcomeFacts.CheckPincode_dispatch_cases
                    (estimatedDeliveryDate world) (inventoryLevels product)
                    nearest)
          as [(a & _ & ->) | [(f & _ & ->) | ->]]; discriminate.
    + rewrite (FlowFacts.Part000_served _ _ _ _ _ _ _ _ _ Hserved Hnearest).
      destruct (OutcomeFacts.Part000_dispatch_cases
                  (inventoryLevels product) nearest)
        as [(a & _ & ->) | [(f & _ & ->) | ->]]; discriminate.
Qed.

Lemma no_warehouse_iff_scan_null_witness :
  (httpMethod Sample.order <> "OPTIONS" ->
   run (CheckPincode.handler Sample.taxicab Sample.parseFloat
          (Scenario.unlocated Sample.stockedNearby) Sample.order)
   = (Normal CheckPincode.noWarehouse,
      bothCalls "110001" "gid://shopify/Product/1"))
  /\ run (Part000.handler Sample.taxicab Sample.parseFloat
            (Scenario.unlocated Sample.stockedNearby) Sample.order)
     = (Normal Part000.noWarehouse,
        bothCalls "110001" "gid://shopify/Product/1").
Proof.
  apply (proj1 (no_warehouse_iff_scan_null Sample.taxicab Sample.parseFloat
                  (Scenario.unlocated Sample.stockedNearby) Sample.order
                  "110001" "gid://shopify/Product/1" Scenario.unparsed
                  Sample.stockedNearby ltac:(Sample.served))).
  reflexivity.
Defined.

(** X11: whatever a handler returns is the empty preflight answer, or a body with
    an [error] member and no [message], or a 200 body with a [message] and no
    [error]: success and error are never mixed, and a [message] only comes
    with status 200. *)
Theorem responses_well_shaped
    (getDistance : Coordinates -> Coordinates -> Geolib.distance)
    (parseFloat : string -> Angle)
    (world : World) (event : Event) (response : Response) (calls : list Call) :
  run (CheckPincode.handler getDistance parseFloat world event)
  = (Normal response, calls)
  \/ run (Part000.handler getDistance parseFloat world event)
     = (Normal response, calls) ->
  wellShaped response.
Proof.
  unfold wellShaped. intros [Hrun | Hrun].
  - destruct (OutcomeFacts.CheckPincode_outcomes getDistance parseFloat
                world event) as (response' & calls' & Hrun' & Hcases).
    rewrite Hrun in Hrun'. injection Hrun' as <- <-.
    destruct Hcases as [Hfixed | (product & nearest & _ & ->)].
    + simpl in Hfixed.
      destruct Hfixed as [<- | Hfixed]; [left; now split|].
      right. left.
      repeat (destruct Hfixed as [<- | Hfixed];
              [split; [discriminate | reflexivity]|]).
      contradiction.
    + right.
      destruct (OutcomeFacts.CheckPincode_dispatch_cases
                  (estimatedDeliveryDate world) (inventoryLevels product)
                  nearest)
        as [(a & _ & ->) | [(f & _ & ->) | ->]].
      * right. repeat split; discriminate.
      * right. repeat split; discriminate.
      * left. split; [discriminate | reflexivity].
  - destruct (queryStringParameters event) as [parameters|] eqn:Hquery;
      [|unfold run, Part000.handler in Hrun; rewrite Hquery in Hrun;
        discriminate Hrun].
    destruct (OutcomeFacts.Part000_outcomes getDistance parseFloat
                world event parameters Hquery)
      as (response' & calls' & Hrun' & Hcases).
    rewrite Hrun in Hrun'. injection Hrun' as <- <-.
    right.
    destruct Hcases
      as [Hfixed | [(errors & ->) | (product & nearest & _ & ->)]].
    + left. simpl in Hfixed.
      repeat (destruct Hfixed as [<- | Hfixed];
              [split; [discriminate | reflexivity]|]).
      contradiction.
    + left. split; [|reflexivity]. destruct errors; discriminate.
    + destruct (OutcomeFacts.Part000_dispatch_cases
                  (inventoryLevels product) nearest)
        as [(a & _ & ->) | [(f & _ & ->) | ->]].
      * right. repeat split; discriminate.
      * right. repeat split; discriminate.
      * left. split; [discriminate | reflexivity].
Qed.

Lemma responses_well_shaped_witness :
  wellShaped
    (Part000.fallback {| locationName := "Emiza Blr Warehouse"; quantity := 7 |}).
Proof.
  apply (responses_well_shaped Sample.taxicab Sample.parseFloat
           (Sample.world Sample.stockedFarAway) Sample.order
           (Part000.fallback
              {| locationName := "Emiza Blr Warehouse"; quantity := 7 |})
           (bothCalls "110001" "gid://shopify/Product/1")).
  right. reflexivity.
Defined.

(** X12: [checkPincode.js]: status 204 is answered exactly to a preflight, and
    status 400 exactly to a request that is not a preflight and lacks a
    parameter (a missing query-parameter object counts as lacking both). *)
Theorem CheckPincode_status_meaning
    (getDistance : Coordinates -> Coordinates -> Geolib.distance)
    (parseFloat : string -> Angle)
    (world : World) (event : Event) :
  exists response calls,
    run (CheckPincode.handler getDistance parseFloat world event)
    = (Normal response, calls)
    /\ (statusCode response = 204 <-> httpMethod event = "OPTIONS")
    /\ (statusCode response = 400 <->
        httpMethod event <> "OPTIONS" /\ lacksParameter (parametersOf event)).
Proof.
  destruct (EndFacts.CheckPincode_ends getDistance parseFloat world event)
    as [(Hmethod & Hrun) | [(Hmethod & Hlacks & Hrun)
       | (Hmethod & Hasked & pc & pid & _ & Hstage)]].
  - do 2 eexists. split; [exact Hrun|]. simpl.
    split; split; try tauto; try discriminate.
  - do 2 eexists. split; [exact Hrun|]. simpl.
    split; split; try tauto; try discriminate.
  - assert (Hplain : forall response,
              statusCode response <> 204 -> statusCode response <> 400 ->
              (statusCode response = 204 <-> httpMethod event = "OPTIONS")
              /\ (statusCode response = 400 <->
                  httpMethod event <> "OPTIONS"
                  /\ lacksParameter (parametersOf event))) by tauto.
    destruct Hstage
      as [(_ & Hrun) | (place & others & response & _ & Hrun & Hcases)];
      do 2 eexists; (split; [exact Hrun|]); apply Hplain; try discriminate.
    + destruct Hcases
        as [-> | [-> | [-> | (product & nearest & _ & _ & ->)]]];
        try discriminate.
      destruct (OutcomeFacts.CheckPincode_dispatch_cases
                  (estimatedDeliveryDate world) (inventoryLevels product)
                  nearest)
        as [(a & _ & ->) | [(f & _ & ->) | ->]]; discriminate.
    + destruct Hcases
        as [-> | [-> | [-> | (product & nearest & _ & _ & ->)]]];
        try discriminate.
      destruct (OutcomeFacts.CheckPincode_dispatch_cases
                  (estimatedDeliveryDate world) (inventoryLevels product)
                  nearest)
        as [(a & _ & ->) | [(f & _ & ->) | ->]]; discriminate.
Qed.

(** X13: [part_000] has no preflight branch: on an event with a query-parameter
    object it never answers 204, and it answers 400 exactly when a parameter
    is missing or empty, whatever the HTTP method. *)
Theorem Part000_status_meaning
    (getDistance : Coordinates -> Coordinates -> Geolib.distance)
    (parseFloat : string -> Angle)
    (world : World) (event : Event) (parameters : Query.Parameters) :
  queryStringParameters event = Some parameters ->
  exists response calls,
    run (Part000.handler getDistance parseFloat world event)
    = (Normal response, calls)
    /\ statusCode response <> 204
    /\ (statusCode response = 400 <-> lacksParameter parameters).
Proof.
  intros Hquery.
  destruct (EndFacts.Part000_ends getDistance parseFloat world event)
    as [(Hnone & _) | [(q & Hq & Hlacks & Hrun)
       | ((q & Hq & Hasked) & pc & pid & _ & Hstage)]].
  - congruence.
  - assert (q = parameters) by congruence. subst q.
    do 2 eexists. split; [exact Hrun|]. simpl.
    split; [discriminate | tauto].
  - assert (q = parameters) by congruence. subst q.
    assert (Hplain : forall response,
              statusCode response <> 204 -> statusCode response <> 400 ->
              statusCode response <> 204
              /\ (statusCode response = 400 <-> lacksParameter parameters))
      by tauto.
    destruct Hstage
      as [(_ & Hrun) | (place & others & response & _ & Hrun & Hcases)];
      do 2 eexists; (split; [exact Hrun|]); apply Hplain; try discriminate.
    + destruct Hcases
        as [-> | [(errors & ->) | [-> | [->
           | (product & nearest & _ & _ & ->)]]]];
        try discriminate.
      destruct (OutcomeFacts.Part000_dispatch_cases
                  (inventoryLevels product) nearest)
        as [(a & _ & ->) | [(f & _ & ->) | ->]]; discriminate.
    + destruct Hcases
        as [-> | [(errors & ->) | [-> | [->
           | (product & nearest & _ & _ & ->)]]]];
        try discriminate.
      destruct (OutcomeFacts.Part000_dispatch_cases
                  (inventoryLevels product) nearest)
        as [(a & _ & ->) | [(f & _ & ->) | ->]]; discriminate.
Qed.

Lemma Part000_status_meaning_witness :
  exists response calls,
    run (Part000.handler Sample.taxicab Sample.parseFloat
           (Sample.world Sample.soldOut)
           (Sample.request "OPTIONS" (Some "110001") None))
    = (Normal response, calls)
    /\ statusCode response <> 204
    /\ (statusCode response = 400 <->
        lacksParameter {| Query.pincode := Some "110001";
                          Query.productId := None |}).
Proof.
  apply (Part000_status_meaning Sample.taxicab Sample.parseFloat
           (Sample.world Sample.soldOut)
           (Sample.request "OPTIONS" (Some "110001") None)).
  reflexivity.
Defined.

(* ================================================================== *)
(** * Which record is dispatched from *)
(* ================================================================== *)

Module TierFacts.

Lemma find_at {A : Type} (p : A -> bool) (before : list A) (x : A)
    (after : list A) :
  (forall y, In y before -> p y = false) -> p x = true ->
  find p (before ++ x :: after) = Some x.
Proof.
  intros Hbefore Hx. induction before as [|y rest IH]; simpl.
  - now rewrite Hx.
  - rewrite (Hbefore y (or_introl eq_refl)).
    apply IH. intros z Hz. apply Hbefore. now right.
Qed.

Lemma availableInventory_none_inv levels nearest :
  availableInventory levels nearest = None ->
  forall r, In r levels -> mapsTo r nearest -> quantity r <= 0.
Proof.
  unfold availableInventory. intros Hnone r Hin Hmap.
  pose proof (find_none _ _ Hnone r Hin) as Hfails.
  apply andb_false_iff in Hfails. destruct Hfails as [Hfails | Hfails].
  - apply SelectionFacts.id_eqb_mapsTo in Hmap. congruence.
  - apply Z.ltb_ge in Hfails. exact Hfails.
Qed.

Lemma availableInventory_at before (a : InventoryLevel) after nearest :
  (forall r, In r before -> mapsTo r nearest -> quantity r <= 0) ->
  mapsTo a nearest -> 0 < quantity a ->
  availableInventory (before ++ a :: after) nearest = Some a.
Proof.
  intros Hbefore Hmap Hqty. unfold availableInventory. apply find_at.
  - intros r Hr. apply andb_false_iff.
    destruct (JS.get warehouseLocationMap (locationName r)) as [id|] eqn:Hid;
      [|now left].
    destruct (String.eqb_spec id (pincode nearest)) as [-> | Hne];
      [|now left].
    right. apply Z.ltb_ge. apply (Hbefore r Hr). exact Hid.
  - apply andb_true_intro. split.
    + now apply SelectionFacts.id_eqb_mapsTo.
    + now apply Z.ltb_lt.
Qed.

Lemma dot_cancel (a b : string) :
  (a ++ ".")%string = (b ++ ".")%string -> a = b.
Proof.
  revert b. induction a as [|c a IH]; intros [|c' b]; simpl.
  - reflexivity.
  - intros [= _ H]. destruct b; discriminate H.
  - intros [= _ H]. destruct a; discriminate H.
  - intros [= -> H]. f_equal. now apply IH.
Qed.

(** The Fallback message of [checkPincode.js] names one location. *)
Lemma CheckPincode_fallback_name date (f g : InventoryLevel) :
  CheckPincode.fallback date f = CheckPincode.fallback date g ->
  locationName f = locationName g.
Proof.
  unfold CheckPincode.fallback, CheckPincode.reply. intros [= H].
  apply SelectionFacts.append_cancel in H. injection H as H.
  now apply dot_cancel.
Qed.

(** The Fallback body of [part_000] determines the record. *)
Lemma Part000_fallback_record (f g : InventoryLevel) :
  Part000.fallback f = Part000.fallback g -> f = g.
Proof.
  unfold Part000.fallback, Part000.reply.
  destruct f as [name qty], g as [name' qty']. simpl.
  intros H. injection H as Hname Hqty _. now subst.
Qed.

End TierFacts.

(** X14: among the records of the nearest warehouse the first one with positive
    quantity, in the flattened order, is the one dispatched from: records of
    that warehouse without stock before it are skipped, later ones (the same
    location under another variant) are ignored, and the quantity returned
    by [part_000] is that of this single record, not a sum. *)
Theorem fulfilled_from_first_match
    (getDistance : Coordinates -> Coordinates -> Geolib.distance)
    (parseFloat : string -> Angle)
    (world : World) (event : Event) (postalCode productId : string)
    (place : GeoMatch) (product : Shopify.Product) (nearest : NearestLocation)
    (before : list InventoryLevel) (a : InventoryLevel)
    (after : list InventoryLevel) :
  Served world event postalCode productId place product ->
  Nearest.findNearestLocation getDistance (located parseFloat place)
    warehouseCoordinates = Some nearest ->
  inventoryLevels product = before ++ a :: after ->
  (forall r, In r before -> mapsTo r nearest -> quantity r <= 0) ->
  mapsTo a nearest ->
  0 < quantity a ->
  (httpMethod event <> "OPTIONS" ->
   fst (run (CheckPincode.handler getDistance parseFloat world event))
   = Normal (CheckPincode.fulfilled (estimatedDeliveryDate world) a))
  /\ fst (run (Part000.handler getDistance parseFloat world event))
     = Normal (Part000.fulfilled a)
  /\ field (Part000.fulfilled a) "quantity" = Some (JS.Number (quantity a)).
Proof.
  intros Hserved Hnearest Hsplit Hbefore Hmap Hqty.
  pose proof (TierFacts.availableInventory_at before a after nearest
                Hbefore Hmap Hqty) as Ha.
  rewrite <- Hsplit in Ha.
  split; [|split; [|reflexivity]].
  - intros Hmethod.
    rewrite (FlowFacts.CheckPincode_served _ _ _ _ _ _ _ _ _
               Hserved Hmethod Hnearest).
    unfold CheckPincode.dispatch. now rewrite Ha.
  - rewrite (FlowFacts.Part000_served _ _ _ _ _ _ _ _ _ Hserved Hnearest).
    unfold Part000.dispatch. now rewrite Ha.
Qed.

Lemma fulfilled_from_first_match_witness :
  fst (run (Part000.handler Sample.taxicab Sample.parseFloat
              (Sample.world Scenario.twoVariants) Sample.order))
  = Normal (Part000.fulfilled
              {| locationName := "Delhi Warehouse"; quantity := 3 |})
  /\ field (Part000.fulfilled
              {| locationName := "Delhi Warehouse"; quantity := 3 |})
       "quantity" = Some (JS.Number 3).
Proof.
  refine (proj2 (fulfilled_from_first_match Sample.taxicab Sample.parseFloat
            (Sample.world Scenario.twoVariants) Sample.order
            "110001" "gid://shopify/Product/1" Sample.place
            Scenario.twoVariants Sample.nearest
            [ {| locationName := "Delhi Warehouse"; quantity := 0 |};
              {| locationName := "Kundli Warehouse"; quantity := 5 |} ]
            {| locationName := "Delhi Warehouse"; quantity := 3 |}
            [ {| locationName := "Delhi Warehouse"; quantity := 9 |} ]
            _ _ _ _ _ _)).
  - Sample.served.
  - reflexivity.
  - reflexivity.
  - intros r [<- | [<- | []]] Hmap.
    + apply Z.le_refl.
    + discriminate Hmap.
  - reflexivity.
  - reflexivity.
Defined.

(** X15: a Fallback answer means the nearest warehouse has no record with
    positive quantity, and the location it names is not one of the nearest
    warehouse. *)
Theorem fallback_means_nearest_empty
    (getDistance : Coordinates -> Coordinates -> Geolib.distance)
    (parseFloat : string -> Angle)
    (world : World) (event : Event) (postalCode productId : string)
    (place : GeoMatch) (product : Shopify.Product) (nearest : NearestLocation) :
  Served world event postalCode productId place product ->
  Nearest.findNearestLocation getDistance (located parseFloat place)
    warehouseCoordinates = Some nearest ->
  (forall f,
     fst (run (Part000.handler getDistance parseFloat world event))
     = Normal (Part000.fallback f) ->
     In f (inventoryLevels product) /\ 0 < quantity f /\ ~ mapsTo f nearest
     /\ forall r, In r (inventoryLevels product) -> mapsTo r nearest ->
                  quantity r <= 0)
  /\ (httpMethod event <> "OPTIONS" ->
      forall f,
        fst (run (CheckPincode.handler getDistance parseFloat world event))
        = Normal (CheckPincode.fallback (estimatedDeliveryDate world) f) ->
        ~ mapsTo f nearest
        /\ forall r, In r (inventoryLevels product) -> mapsTo r nearest ->
                     quantity r <= 0).
Proof.
  intros Hserved Hnearest. split.
  - intros f.
    rewrite (FlowFacts.Part000_served _ _ _ _ _ _ _ _ _ Hserved Hnearest).
    unfold Part000.dispatch. cbn [fst].
    destruct (availableInventory (inventoryLevels product) nearest)
      as [a|] eqn:Ha.
    { intros H. apply SelectionFacts.Normal_inj in H. symmetry in H.
      now apply SelectionFacts.Part000_fallback_not_fulfilled in H. }
    destruct (fallbackInventory (inventoryLevels product)) as [g|] eqn:Hg;
      [|discriminate].
    intros H. apply SelectionFacts.Normal_inj in H.
    apply TierFacts.Part000_fallback_record in H. subst g.
    pose proof (TierFacts.availableInventory_none_inv _ _ Ha) as Hempty.
    destruct (SelectionFacts.fallbackInventory_some _ _ Hg)
      as (before & after & Hsplit & Hqty & _).
    assert (Hin : In f (inventoryLevels product))
      by (rewrite Hsplit; apply in_elt).
    repeat split; try assumption.
    intros Hmap. specialize (Hempty f Hin Hmap). lia.
  - intros Hmethod f.
    rewrite (FlowFacts.CheckPincode_served _ _ _ _ _ _ _ _ _
               Hserved Hmethod Hnearest).
    unfold CheckPincode.dispatch. cbn [fst].
    destruct (availableInventory (inventoryLevels product) nearest)
      as [a|] eqn:Ha.
    { intros H. apply SelectionFacts.Normal_inj in H. symmetry in H.
      now apply SelectionFacts.CheckPincode_fallback_not_fulfilled in H. }
    destruct (fallbackInventory (inventoryLevels product)) as [g|] eqn:Hg;
      [|discriminate].
    intros H. apply SelectionFacts.Normal_inj in H.
    apply TierFacts.CheckPincode_fallback_name in H.
    pose proof (TierFacts.availableInventory_none_inv _ _ Ha) as Hempty.
    destruct (SelectionFacts.fallbackInventory_some _ _ Hg)
      as (before & after & Hsplit & Hqty & _).
    assert (Hin : In g (inventoryLevels product))
      by (rewrite Hsplit; apply in_elt).
    split; [|exact Hempty].
    unfold mapsTo. rewrite <- H. intros Hmap.
    specialize (Hempty g Hin Hmap). lia.
Qed.

Lemma fallback_means_nearest_empty_witness :
  In {| locationName := "Emiza Blr Warehouse"; quantity := 7 |}
     (inventoryLevels Sample.stockedFarAway)
  /\ ~ mapsTo {| locationName := "Emiza Blr Warehouse"; quantity := 7 |}
         Sample.nearest.
Proof.
  destruct (proj1 (fallback_means_nearest_empty Sample.taxicab
              Sample.parseFloat (Sample.world Sample.stockedFarAway)
              Sample.order "110001" "gid://shopify/Product/1" Sample.place
              Sample.stockedFarAway Sample.nearest
              ltac:(Sample.served) eq_refl)
            {| locationName := "Emiza Blr Warehouse"; quantity := 7 |}
            eq_refl)
    as (Hin & _ & Hnot & _).
  split; [exact Hin | exact Hnot].
Defined.

(** X18: the two handlers agree once the postal code is resolved: on a request
    that is not a preflight, unless Shopify answers 2xx with an empty body,
    they issue the same two calls and answer with the same status code, and
    one carries a success message exactly when the other does. *)
Theorem handlers_agree
    (getDistance : Coordinates -> Coordinates -> Geolib.distance)
    (parseFloat : string -> Angle)
    (world : World) (event : Event) (postalCode productId : string)
    (place : GeoMatch) (others : list GeoMatch) :
  httpMethod event <> "OPTIONS" ->
  Asks event postalCode productId ->
  nominatim world (nominatim_url postalCode) = Some (place :: others) ->
  shopify world productId <> Shopify.Answer true None ->
  exists old new,
    run (CheckPincode.handler getDistance parseFloat world event)
    = (Normal old, bothCalls postalCode productId)
    /\ run (Part000.handler getDistance parseFloat world event)
       = (Normal new, bothCalls postalCode productId)
    /\ statusCode old = statusCode new
    /\ (field old "message" = None <-> field new "message" = None).
Proof.
  intros Hmethod Hasks Hplace Hbody.
  StageFacts.expose. rewrite (StageFacts.not_preflight _ Hmethod).
  StageFacts.asked Hasks. rewrite Hplace.
  destruct (shopify world productId) as [|[] [result|]] eqn:Hreply;
    cbn [fst snd negb];
    try (do 2 eexists; repeat split; reflexivity).
  - destruct (Shopify.data result) as [[product|]|];
      try (do 2 eexists; repeat split; reflexivity).
    fold (located parseFloat place).
    destruct (Nearest.findNearestLocation getDistance
                (located parseFloat place) warehouseCoordinates)
      as [nearest|];
      [|do 2 eexists; repeat split; reflexivity].
    unfold CheckPincode.dispatch, Part000.dispatch.
    destruct (availableInventory (inventoryLevels product) nearest);
      [do 2 eexists; repeat split; try reflexivity; discriminate|].
    destruct (fallbackInventory (inventoryLevels product));
      do 2 eexists; repeat split; try reflexivity; discriminate.
  - contradiction.
Qed.

Lemma handlers_agree_witness :
  exists old new,
    run (CheckPincode.handler Sample.taxicab Sample.parseFloat
           (Sample.world Sample.stockedFarAway) Sample.order)
    = (Normal old, bothCalls "110001" "gid://shopify/Product/1")
    /\ run (Part000.handler Sample.taxicab Sample.parseFloat
              (Sample.world Sample.stockedFarAway) Sample.order)
       = (Normal new, bothCalls "110001" "gid://shopify/Product/1")
    /\ statusCode old = statusCode new
    /\ (field old "message" = None <-> field new "message" = None).
Proof.
  apply (handlers_agree Sample.taxicab Sample.parseFloat
           (Sample.world Sample.stockedFarAway) Sample.order
           "110001" "gid://shopify/Product/1" Sample.place []).
  - discriminate.
  - split; [reflexivity | split; discriminate].
  - reflexivity.
  - discriminate.
Defined.

(* ================================================================== *)
(** * Ties and growth of the registry *)
(* ================================================================== *)

Module OrderFacts.
Section Order.

Context {A : Type}.

Local Abbreviation below :=
  (fun a b : N * (string * A) => (fst a <= fst b)%N).

Lemma insert_index_In (i : N) (e : string * A) sorted y :
  In y (JS.insert_index i e sorted) <-> y = (i, e) \/ In y sorted.
Proof.
  split.
  - intros Hin.
    apply (Permutation_in _ (EntriesFacts.insert_index_perm i e sorted)) in Hin.
    destruct Hin as [<- | Hin]; tauto.
  - intros Hin.
    apply (Permutation_in _
             (Permutation_sym (EntriesFacts.insert_index_perm i e sorted))).
    destruct Hin as [-> | Hin]; [now left | now right].
Qed.

Lemma insert_index_sorted (i : N) (e : string * A) sorted :
  StronglySorted below sorted ->
  StronglySorted below (JS.insert_index i e sorted).
Proof.
  induction sorted as [|[j e'] rest IH]; intros Hsorted; simpl.
  - repeat constructor.
  - apply StronglySorted_inv in Hsorted. destruct Hsorted as [Hrest Hall].
    destruct (N.ltb_spec i j) as [Hlt | Hge].
    + constructor; [now constructor|].
      constructor; [simpl; lia|].
      rewrite Forall_forall in *. intros y Hy. specialize (Hall y Hy).
      simpl in *. lia.
    + constructor; [now apply IH|].
      rewrite Forall_forall in *. intros y Hy.
      apply insert_index_In in Hy. destruct Hy as [-> | Hy].
      * exact Hge.
      * now apply Hall.
Qed.

Lemma index_properties_sorted (obj : JS.object A) :
  StronglySorted below (JS.index_properties obj).
Proof.
  induction obj as [|e rest IH]; simpl; [constructor|].
  destruct (JS.array_index (fst e)); [now apply insert_index_sorted | exact IH].
Qed.

Lemma index_properties_key (obj : JS.object A) (i : N) (e : string * A) :
  In (i, e) (JS.index_properties obj) -> JS.array_index (fst e) = Some i.
Proof.
  induction obj as [|e' rest IH]; simpl; [contradiction|].
  destruct (JS.array_index (fst e')) as [j|] eqn:Hkey; [|exact IH].
  intros Hin. apply insert_index_In in Hin.
  destruct Hin as [[= -> ->] | Hin]; [exact Hkey | now apply IH].
Qed.

Lemma sorted_after (l1 : list (N * (string * A))) x l2 :
  StronglySorted below (l1 ++ x :: l2) -> Forall (below x) l2.
Proof.
  induction l1 as [|y l1 IH]; simpl; intros Hsorted;
    apply StronglySorted_inv in Hsorted; destruct Hsorted as [Hrest Hall].
  - exact Hall.
  - now apply IH.
Qed.

(** With array-index keys only, [Object.entries] is the sorted part. *)
Lemma Object_entries_indices (obj : JS.object A) :
  (forall e, In e obj -> JS.array_index (fst e) <> None) ->
  JS.Object_entries obj = map snd (JS.index_properties obj).
Proof.
  intros Hkeys. unfold JS.Object_entries.
  assert (Hnone : filter (fun e => negb (JS.is_index_key e)) obj = []).
  { induction obj as [|e rest IH]; simpl; [reflexivity|].
    unfold JS.is_index_key at 1.
    destruct (JS.array_index (fst e)) eqn:Hkey; simpl.
    - apply IH. intros e' He'. apply Hkeys. now right.
    - now destruct (Hkeys e (or_introl eq_refl)). }
  rewrite Hnone. apply app_nil_r.
Qed.

End Order.

End OrderFacts.

(** X19: in a registry keyed by pincodes (array-index keys, as in both handlers)
    [Object.entries] visits the warehouses by ascending pincode, so among
    warehouses at the same least distance the one with the numerically
    smallest pincode is returned, wherever it stands in the literal. *)
Theorem tie_goes_to_smallest_pincode
    (getDistance : Coordinates -> Coordinates -> Geolib.distance)
    (user : Coordinates) (registry : JS.object Coordinates)
    (nearest : NearestLocation) :
  (forall e, In e registry -> JS.array_index (fst e) <> None) ->
  Nearest.findNearestLocation getDistance user registry = Some nearest ->
  exists i,
    JS.array_index (pincode nearest) = Some i
    /\ forall id c j,
         In (id, c) registry ->
         getDistance user c = getDistance user (coords nearest) ->
         JS.array_index id = Some j ->
         (i <= j)%N.
Proof.
  intros Hkeys. unfold Nearest.findNearestLocation.
  destruct (NearestFacts.tracks_entries getDistance user registry)
    as [Hnil | id0 c0 m before after Hseen Hc0 Hbefore Hafter];
    [discriminate|].
  intros [= <-]. simpl.
  pose proof (OrderFacts.Object_entries_indices registry Hkeys) as Hentries.
  rewrite Hentries in Hseen.
  apply map_eq_app in Hseen.
  destruct Hseen as (lb & lrest & Hsplit & Hlb & Hlrest).
  apply map_eq_cons in Hlrest.
  destruct Hlrest as ([i x] & la & -> & Hx & Hla). simpl in Hx. subst x.
  pose proof (OrderFacts.index_properties_sorted registry) as Hsorted.
  rewrite Hsplit in Hsorted.
  apply OrderFacts.sorted_after in Hsorted.
  rewrite Forall_forall in Hsorted.
  assert (Hkey : forall k e, In (k, e) (lb ++ (i, (id0, c0)) :: la) ->
                   JS.array_index (fst e) = Some k).
  { intros k e Hin. rewrite <- Hsplit in Hin.
    now apply OrderFacts.index_properties_key in Hin. }
  exists i. split.
  - apply (Hkey i (id0, c0)). apply in_elt.
  - intros id c j Hin Htie Hj.
    apply EntriesFacts.Object_entries_In in Hin.
    rewrite Hentries, Hsplit, map_app in Hin. simpl in Hin.
    rewrite Hlb, Hla in Hin.
    apply in_app_or in Hin. destruct Hin as [Hin | [Hin | Hin]].
    + specialize (Hbefore _ Hin). simpl in Hbefore.
      rewrite Htie, Hc0 in Hbefore. simpl in Hbefore. lia.
    + injection Hin as <- <-.
      pose proof (Hkey i (id0, c0) (in_elt _ _ _)) as Hi. simpl in Hi.
      assert (i = j) by congruence. lia.
    + rewrite <- Hla in Hin. apply in_map_iff in Hin.
      destruct Hin as ([k e] & He & Hin). simpl in He. subst e.
      specialize (Hsorted _ Hin). simpl in Hsorted.
      assert (Hk : JS.array_index (fst (id, c)) = Some k).
      { apply Hkey. apply in_or_app. right. now right. }
      simpl in Hk. assert (k = j) by congruence. lia.
Qed.

Lemma tie_goes_to_smallest_pincode_witness :
  exists i,
    JS.array_index "110042" = Some i
    /\ forall id c j,
         In (id, c) Sample.twins ->
         Sample.taxicab Sample.delhi c
         = Sample.taxicab Sample.delhi
             {| latitude := Deg 28.65; longitude := Deg 76.2 |} ->
         JS.array_index id = Some j ->
         (i <= j)%N.
Proof.
  apply (tie_goes_to_smallest_pincode Sample.taxicab Sample.delhi Sample.twins
           {| pincode := "110042";
              coords := {| latitude := Deg 28.65; longitude := Deg 76.2 |} |}).
  - intros e [<- | [<- | [<- | []]]]; discriminate.
  - reflexivity.
Defined.

(** X20: adding warehouses to the registry never moves the nearest one farther
    away: if every entry of [registry] is also in [larger], the warehouse
    found in [larger] is at most as far as the one found in [registry]. *)
Theorem larger_registry_not_farther
    (getDistance : Coordinates -> Coordinates -> Geolib.distance)
    (user : Coordinates) (registry larger : JS.object Coordinates)
    (nearest nearest' : NearestLocation) :
  (forall e, In e registry -> In e larger) ->
  Nearest.findNearestLocation getDistance user registry = Some nearest ->
  Nearest.findNearestLocation getDistance user larger = Some nearest' ->
  Geolib.le (getDistance user (coords nearest'))
            (getDistance user (coords nearest)).
Proof.
  intros Hsub Hsmall Hlarge.
  apply NearestFacts.found_is_least in Hsmall, Hlarge.
  destruct Hsmall as (m & Hm & Hin & _).
  destruct Hlarge as (m' & Hm' & _ & Hleast).
  specialize (Hleast _ (Hsub _ Hin)). simpl in Hleast.
  rewrite Hm in *. rewrite Hm'. simpl in *. lia.
Qed.

Lemma larger_registry_not_farther_witness :
  Geolib.le
    (Sample.taxicab Sample.delhi
       {| latitude := Deg 28.7041; longitude := Deg 77.1025 |})
    (Sample.taxicab Sample.delhi
       {| latitude := Deg 22.5726; longitude := Deg 88.3639 |}).
Proof.
  apply (larger_registry_not_farther Sample.taxicab Sample.delhi
           [ ("700001",
              {| latitude := Deg 22.5726; longitude := Deg 88.3639 |}) ]
           (("700001",
             {| latitude := Deg 22.5726; longitude := Deg 88.3639 |})
              :: warehouseCoordinates)
           {| pincode := "700001";
              coords :=
                {| latitude := Deg 22.5726; longitude := Deg 88.3639 |} |}
           {| pincode := "110042";
              coords :=
                {| latitude := Deg 28.7041; longitude := Deg 77.1025 |} |}).
  - intros e [<- | []]. now left.
  - reflexivity.
  - reflexivity.
Defined.

(* ================================================================== *)
(** * Reading the inventory off the answer *)
(* ================================================================== *)

Module ReadFacts.

Lemma fallbackInventory_none_inv levels :
  fallbackInventory levels = None ->
  forall r, In r levels -> quantity r <= 0.
Proof.
  unfold fallbackInventory. intros Hnone r Hin.
  pose proof (find_none _ _ Hnone r Hin) as Hfails.
  now apply Z.ltb_ge in Hfails.
Qed.

(** The Fulfilled message of [checkPincode.js] names one location. *)
Lemma CheckPincode_fulfilled_name date (a b : InventoryLevel) :
  CheckPincode.fulfilled date a = CheckPincode.fulfilled date b ->
  locationName a = locationName b.
Proof.
  unfold CheckPincode.fulfilled, CheckPincode.reply. intros [= H].
  apply SelectionFacts.append_cancel in H. injection H as H.
  now apply TierFacts.dot_cancel.
Qed.

(** The Fulfilled body of [part_000] determines the record. *)
Lemma Part000_fulfilled_record (a b : InventoryLevel) :
  Part000.fulfilled a = Part000.fulfilled b -> a = b.
Proof.
  unfold Part000.fulfilled, Part000.reply.
  destruct a as [name qty], b as [name' qty']. simpl.
  intros H. injection H as Hname Hqty _. now subst.
Qed.

End ReadFacts.

(** X16: a Fulfilled answer is only given from stock of the nearest warehouse:
    the record [part_000] returns is a record of the inventory that maps to
    the nearest warehouse and has positive quantity, and the location
    [checkPincode.js] names is the location of such a record. *)
Theorem fulfilled_means_nearest_stock
    (getDistance : Coordinates -> Coordinates -> Geolib.distance)
    (parseFloat : string -> Angle)
    (world : World) (event : Event) (postalCode productId : string)
    (place : GeoMatch) (product : Shopify.Product) (nearest : NearestLocation) :
  Served world event postalCode productId place product ->
  Nearest.findNearestLocation getDistance (located parseFloat place)
    warehouseCoordinates = Some nearest ->
  (forall a,
     fst (run (Part000.handler getDistance parseFloat world event))
     = Normal (Part000.fulfilled a) ->
     In a (inventoryLevels product) /\ mapsTo a nearest /\ 0 < quantity a)
  /\ (httpMethod event <> "OPTIONS" ->
      forall a,
        fst (run (CheckPincode.handler getDistance parseFloat world event))
        = Normal (CheckPincode.fulfilled (estimatedDeliveryDate world) a) ->
        exists r,
          In r (inventoryLevels product) /\ mapsTo r nearest
          /\ 0 < quantity r /\ locationName r = locationName a).
Proof.
  intros Hserved Hnearest. split.
  - intros a.
    rewrite (FlowFacts.Part000_served _ _ _ _ _ _ _ _ _ Hserved Hnearest).
    unfold Part000.dispatch. cbn [fst].
    destruct (availableInventory (inventoryLevels product) nearest)
      as [b|] eqn:Hb.
    + intros H. apply SelectionFacts.Normal_inj in H.
      apply ReadFacts.Part000_fulfilled_record in H. subst b.
      now apply SelectionFacts.availableInventory_some.
    + destruct (fallbackInventory (inventoryLevels product)) as [g|];
        [|discriminate].
      intros H. apply SelectionFacts.Normal_inj in H.
      now apply SelectionFacts.Part000_fallback_not_fulfilled in H.
  - intros Hmethod a.
    rewrite (FlowFacts.CheckPincode_served _ _ _ _ _ _ _ _ _
               Hserved Hmethod Hnearest).
    unfold CheckPincode.dispatch. cbn [fst].
    destruct (availableInventory (inventoryLevels product) nearest)
      as [b|] eqn:Hb.
    + intros H. apply SelectionFacts.Normal_inj in H.
      apply ReadFacts.CheckPincode_fulfilled_name in H.
      exists b. apply SelectionFacts.availableInventory_some in Hb. tauto.
    + destruct (fallbackInventory (inventoryLevels product)) as [g|];
        [|discriminate].
      intros H. apply SelectionFacts.Normal_inj in H.
      now apply SelectionFacts.CheckPincode_fallback_not_fulfilled in H.
Qed.

Lemma fulfilled_means_nearest_stock_witness :
  In {| locationName := "Delhi Warehouse"; quantity := 2 |}
     (inventoryLevels Sample.stockedNearby)
  /\ mapsTo {| locationName := "Delhi Warehouse"; quantity := 2 |}
       Sample.nearest
  /\ 0 < quantity {| locationName := "Delhi Warehouse"; quantity := 2 |}.
Proof.
  apply (proj1 (fulfilled_means_nearest_stock Sample.taxicab
                  Sample.parseFloat (Sample.world Sample.stockedNearby)
                  Sample.order "110001" "gid://shopify/Product/1" Sample.place
                  Sample.stockedNearby Sample.nearest
                  ltac:(Sample.served) eq_refl)
               {| locationName := "Delhi Warehouse"; quantity := 2 |}).
  reflexivity.
Defined.

(** X17: an out-of-stock answer is only given when no record of the inventory
    has positive quantity. *)
Theorem outOfStock_means_no_stock
    (getDistance : Coordinates -> Coordinates -> Geolib.distance)
    (parseFloat : string -> Angle)
    (world : World) (event : Event) (postalCode productId : string)
    (place : GeoMatch) (product : Shopify.Product) :
  Served world event postalCode productId place product ->
  (fst (run (Part000.handler getDistance parseFloat world event))
   = Normal Part000.outOfStock ->
   forall r, In r (inventoryLevels product) -> quantity r <= 0)
  /\ (httpMethod event <> "OPTIONS" ->
      fst (run (CheckPincode.handler getDistance parseFloat world event))
      = Normal CheckPincode.outOfStock ->
      forall r, In r (inventoryLevels product) -> quantity r <= 0).
Proof.
  intros Hserved.
  destruct (Nearest.findNearestLocation getDistance
              (located parseFloat place) warehouseCoordinates)
    as [nearest|] eqn:Hnearest.
  2: { split.
       - rewrite (FlowFacts.Part000_unlocated _ _ _ _ _ _ _ _
                    Hserved Hnearest).
         discriminate.
       - intros Hmethod.
         rewrite (FlowFacts.CheckPincode_unlocated _ _ _ _ _ _ _ _
                    Hserved Hmethod Hnearest).
         discriminate. }
  split.
  - rewrite (FlowFacts.Part000_served _ _ _ _ _ _ _ _ _ Hserved Hnearest).
    unfold Part000.dispatch. cbn [fst].
    destruct (availableInventory (inventoryLevels product) nearest);
      [discriminate|].
    destruct (fallbackInventory (inventoryLevels product)) eqn:Hnone;
      [discriminate|].
    intros _. now apply ReadFacts.fallbackInventory_none_inv.
  - intros Hmethod.
    rewrite (FlowFacts.CheckPincode_served _ _ _ _ _ _ _ _ _
               Hserved Hmethod Hnearest).
    unfold CheckPincode.dispatch. cbn [fst].
    destruct (availableInventory (inventoryLevels product) nearest);
      [discriminate|].
    destruct (fallbackInventory (inventoryLevels product)) eqn:Hnone;
      [discriminate|].
    intros _. now apply ReadFacts.fallbackInventory_none_inv.
Qed.

Lemma outOfStock_means_no_stock_witness :
  Forall (fun r => quantity r <= 0) (inventoryLevels Sample.soldOut).
Proof.
  apply Forall_forall.
  apply (proj1 (outOfStock_means_no_stock Sample.taxicab Sample.parseFloat
                  (Sample.world Sample.soldOut) Sample.order
                  "110001" "gid://shopify/Product/1" Sample.place
                  Sample.soldOut ltac:(Sample.served))).
  reflexivity.
Defined.

(** X21: the flattening works entry by entry: the [i]-th record has the location
    name of the [i]-th entry and its first "available" quantity, negative
    ones included; further quantities of the entry are ignored, and a
    missing one reads as 0. *)
Theorem inventoryLevels_entrywise (product : Shopify.Product) (i : nat) :
  nth_error (inventoryLevels product) i
  = option_map
      (fun level =>
         {| locationName := Shopify.location_name level;
            quantity := hd 0 (Shopify.quantities level) |})
      (nth_error (entries product) i).
Proof.
  rewrite InventoryFacts.inventoryLevels_map, nth_error_map.
  destruct (nth_error (entries product) i) as [level|]; [|reflexivity].
  simpl. unfold toInventoryLevel. f_equal. f_equal.
  destruct (Shopify.quantities level) as [|q rest]; [reflexivity|].
  simpl. now destruct (Z.eqb_spec q 0).
Qed.
